(** * micronota: the cmscan / cmsearch tabular parser

    A shallow embedding of [micronota/parsers/cmscan.py] and the properties
    of its sniffer and of its record parser.

    Conventions of the embedding.
    - A Python [str] is a [string]; a character is a code point below 256
      (the Latin-1 part of Unicode), with Python's own classification of
      these code points for [str.isspace], [str.isdigit] and [int].
    - A file handle is the list of the lines that iterating over it gives.
    - A Python integer is a [Z].
    - Code that can raise returns a [result]; the generator [_parse_records]
      returns the list of the groups it yields together with the exception
      that ended it, if any.
    - A [dict] is an association list in insertion order; assigning to a key
      that is present replaces the value in place. *)

From Stdlib Require Import List String Ascii ZArith NArith Bool Lia DecimalString.
Import ListNotations.

#[local] Open Scope string_scope.
#[local] Open Scope Z_scope.

(** ** Python strings *)

Module Py.

(** [Py_UNICODE_ISSPACE] on code points below 256: U+0009..U+000D,
    U+001C..U+0020, U+0085 and U+00A0. *)
Definition isspace_char (c : ascii) : bool :=
  let n := N_of_ascii c in
  (((9 <=? n) && (n <=? 13)) || ((28 <=? n) && (n <=? 32))
   || (n =? 133) || (n =? 160))%N.

(** The characters [int] reads: the decimal digits [0]..[9]. *)
Definition isdecimal_char (c : ascii) : bool :=
  let n := N_of_ascii c in ((48 <=? n) && (n <=? 57))%N.

(** The characters [str.isdigit] accepts: the decimal digits and, below 256,
    the superscripts U+00B2, U+00B3 and U+00B9. *)
Definition isdigit_char (c : ascii) : bool :=
  let n := N_of_ascii c in
  (isdecimal_char c || (n =? 178) || (n =? 179) || (n =? 185))%N.

Fixpoint all_chars (p : ascii -> bool) (s : string) : bool :=
  match s with
  | EmptyString => true
  | String c r => p c && all_chars p r
  end.

Definition nonempty (s : string) : bool :=
  match s with EmptyString => false | String _ _ => true end.

(** [s.isspace()] and [s.isdigit()]: false on the empty string. *)
Definition isspace (s : string) : bool := nonempty s && all_chars isspace_char s.
Definition isdigit (s : string) : bool := nonempty s && all_chars isdigit_char s.

(** [s.startswith(p)] *)
Definition startswith (s p : string) : bool := String.prefix p s.

Fixpoint lstrip (s : string) : string :=
  match s with
  | EmptyString => EmptyString
  | String c r => if isspace_char c then lstrip r else s
  end.

Fixpoint rstrip (s : string) : string :=
  match s with
  | EmptyString => EmptyString
  | String c r =>
      match rstrip r with
      | EmptyString => if isspace_char c then EmptyString else String c EmptyString
      | r' => String c r'
      end
  end.

(** [s.strip()] *)
Definition strip (s : string) : string := rstrip (lstrip s).

(** [s.split()]: the maximal runs of characters that are not whitespace.
    [word] is the token being read. *)
Fixpoint split_from (word s : string) : list string :=
  match s with
  | EmptyString => if nonempty word then [word] else []
  | String c r =>
      if isspace_char c
      then (if nonempty word then word :: split_from EmptyString r
            else split_from EmptyString r)
      else split_from (word ++ String c EmptyString) r
  end.

Definition split (s : string) : list string := split_from EmptyString s.

(** The [%i] conversion of the [%] operator. *)
Definition fmt_i (n : Z) : string := NilZero.string_of_int (Z.to_int n).

End Py.

(** ** Exceptions *)

Inductive exception : Type :=
| CmscanFormatError (message : string)
| IndexError
| KeyError
| TypeError
| ValueError.

Inductive result (A : Type) : Type :=
| Ok (a : A)
| Raise (e : exception).

Arguments Ok {A} a.
Arguments Raise {A} e.

Definition bind {A B : Type} (r : result A) (k : A -> result B) : result B :=
  match r with
  | Ok a => k a
  | Raise e => Raise e
  end.

Notation "x <- r ;; k" := (bind r (fun x => k))
  (at level 61, r at next level, right associativity).

Definition is_format_error (e : exception) : bool :=
  match e with CmscanFormatError _ => true | _ => false end.

(** [int(s)].  The parser calls it only on a string that passed
    [s.isdigit()], which holds no sign, blank or underscore: there [int]
    returns the value of a string of decimal digits and raises [ValueError]
    on a superscript digit. *)
Fixpoint int_from (acc : Z) (s : string) : option Z :=
  match s with
  | EmptyString => Some acc
  | String c r =>
      if Py.isdecimal_char c
      then int_from (10 * acc + (Z.of_N (N_of_ascii c) - 48)) r
      else None
  end.

Definition int (s : string) : result Z :=
  if Py.nonempty s
  then match int_from 0 s with Some n => Ok n | None => Raise ValueError end
  else Raise ValueError.

(** [l[i]] for an index that is not negative. *)
Definition getitem {A : Type} (l : list A) (i : nat) : result A :=
  match nth_error l i with
  | Some a => Ok a
  | None => Raise IndexError
  end.

(** [l.index(x)] *)
Fixpoint index_from (i : nat) (l : list string) (x : string) : result nat :=
  match l with
  | [] => Raise ValueError
  | y :: r => if String.eqb y x then Ok i else index_from (S i) r x
  end.

Definition index (l : list string) (x : string) : result nat := index_from 0 l x.

(** ** Dictionaries *)

Section Dict.

Context {K V : Type} (eqb : K -> K -> bool).

(** [d[k] = v]: the value of a key that is present is replaced in place,
    a new key is appended. *)
Fixpoint dict_set (d : list (K * V)) (k : K) (v : V) : list (K * V) :=
  match d with
  | [] => [(k, v)]
  | (k', v') :: r =>
      if eqb k' k then (k', v) :: r else (k', v') :: dict_set r k v
  end.

Fixpoint dict_find (d : list (K * V)) (k : K) : option V :=
  match d with
  | [] => None
  | (k', v') :: r => if eqb k' k then Some v' else dict_find r k
  end.

(** [d[k]] *)
Definition dict_get (d : list (K * V)) (k : K) : result V :=
  match dict_find d k with
  | Some v => Ok v
  | None => Raise KeyError
  end.

End Dict.

(** ** The collaborators from scikit-bio *)

(** The attributes of a hit, a [dict] from column name to field. *)
Definition attributes_t : Type := list (string * string).

(** An interval [(start, end)]. *)
Definition interval : Type := (Z * Z)%type.

(** Modelled from the spec: [skbio.metadata.Feature], which is not part of
    this repository.  The spec calls it an immutable, hashable attribute set
    with structural equality derived from all its fields; it is used as the
    key of the annotations.  Two features are compared item by item: every
    attribute set the parser builds holds the same keys in the same order
    (see [parse_hit_keys]). *)
Definition Feature (attributes : attributes_t) : attributes_t := attributes.

Fixpoint Feature_eqb (a b : attributes_t) : bool :=
  match a, b with
  | [], [] => true
  | (k, v) :: a', (k', v') :: b' =>
      String.eqb k k' && String.eqb v v' && Feature_eqb a' b'
  | _, _ => false
  end.

(** One yielded group: a [dict] from features to lists of intervals. *)
Definition annotations_t : Type := list (attributes_t * list interval).

(** Modelled from the spec: [skbio.io.format._base._line_generator], the
    line-supplying stream with options to skip blank lines and to strip the
    surrounding whitespace of each line. *)
Fixpoint _line_generator (fh : list string) (skip_blanks strip : bool)
  : list string :=
  match fh with
  | [] => []
  | line :: rest =>
      let line := if strip then Py.strip line else line in
      let skip :=
        if skip_blanks then Py.isspace line || negb (Py.nonempty line)
        else false in
      if skip then _line_generator rest skip_blanks strip
      else line :: _line_generator rest skip_blanks strip
  end.

(** Modelled from the spec: [skbio.io.format._base._too_many_blanks], the
    predicate that more than [max_blanks] blank lines precede the content.
    It counts the leading lines that are empty once stripped and rewinds. *)
Fixpoint too_many_blanks_from (lines : list string) (count max_blanks : nat)
  : bool :=
  match lines with
  | [] => false
  | line :: rest =>
      if Py.nonempty line then false
      else
        let count := S count in
        if (max_blanks <? count)%nat then true
        else too_many_blanks_from rest count max_blanks
  end.

Definition _too_many_blanks (fh : list string) (max_blanks : nat) : bool :=
  too_many_blanks_from (_line_generator fh false true) 0 max_blanks.

(** ** The module *)

(** Lines 150-154. *)
Definition _COLUMNS : list string :=
  ["MODEL_NAME"; "MODEL_ACCESSION"; "SEQUENCE_NAME";
   "SEQUENCE_ACCESSION"; "TYPE_OF_MODEL"; "MODEL_START_POSITION";
   "MODEL_END_POSITION"; "SEQUENCE_START_POSITION";
   "SEQUENCE_END_POSITION"; "STRAND"; "TRUNCATED"; "PASS";
   "GC_CONTENT"; "BIAS"; "BITSCORE"; "EVALUE"; "INC"; "DESCRIPTION"].

(** Lines 168-182.  The options record is the empty [dict]. *)
Definition _cmscan_sniffer (fh : list string) : bool * list (string * string) :=
  if _too_many_blanks fh 5 then (false, [])
  else
    match _line_generator fh true false with
    | [] => (false, [])
    | line :: _ =>
        if Py.startswith line "#target name" then (true, []) else (false, [])
    end.

(** *** The messages of the format errors *)

(** Lines 224-230: ["%s %i %s '%s'."] applied to four values. *)
Definition start_message (column : nat) (field : string) : string :=
  "Column" ++ " " ++ Py.fmt_i (Z.of_nat column) ++ " "
  ++ "must be an integer value for the start position of the hit. Here, it is"
  ++ " '" ++ field ++ "'.".

(** Lines 248-257: ['%s %i %s %i %s'] applied to five values. *)
Definition forward_message (hitStart hitEnd : Z) : string :=
  "On the forward strand (+), start position of a hit must always be smaller than its end position. This is not true for the hit between"
  ++ " " ++ Py.fmt_i hitStart ++ " " ++ "and" ++ " " ++ Py.fmt_i hitEnd ++ " "
  ++ ". It might be, that this hit is in fact on the reverse strand. Please check strand orientation and positions.".

(** Lines 260-269. *)
Definition reverse_message (hitStart hitEnd : Z) : string :=
  "On the reverse strand (-), start position of a hit must always be larger than its end position. This is not true for the hit between"
  ++ " " ++ Py.fmt_i hitStart ++ " " ++ "and" ++ " " ++ Py.fmt_i hitEnd ++ " "
  ++ ". It might be, that this hit is in fact on the forward strand. Please check strand orientation and positions.".

(** Lines 273-279: ["%s '%s' %s %i. %s"] applied to five values. *)
Definition strand_message (hitOrientation : string) (column : nat) : string :=
  "Unknown strand character" ++ " '" ++ hitOrientation ++ "' " ++ "in column"
  ++ " " ++ Py.fmt_i (Z.of_nat column) ++ ". "
  ++ "Valid characters are '+' for the forward strand and '-' for the reverse strand.".

(** Lines 296-297. *)
Definition program_message : string :=
  "Argument 'program' must be either 'CMSEARCH' or 'CMSCAN'!".

(** *** The body of the loop of [_parse_records] *)

(** Lines 220-279: the start and the end of the hit in the sequence,
    checked against the strand.  The branch of lines 236-243 applies a
    format of four conversions to a tuple of five values: the [%] operator
    raises [TypeError] there and no [CmscanFormatError] is built. *)
Definition hit_interval (fields : list string) : result interval :=
  i <- index _COLUMNS "SEQUENCE_START_POSITION" ;;
  field <- getitem fields i ;;
  hitStart <- (if Py.isdigit field then int field
               else Raise (CmscanFormatError (start_message i field))) ;;
  i <- index _COLUMNS "SEQUENCE_END_POSITION" ;;
  field <- getitem fields i ;;
  hitEnd <- (if Py.isdigit field then int field else Raise TypeError) ;;
  i <- index _COLUMNS "STRAND" ;;
  hitOrientation <- getitem fields i ;;
  if String.eqb hitOrientation "+" then
    if hitStart >? hitEnd
    then Raise (CmscanFormatError (forward_message hitStart hitEnd))
    else Ok (hitStart, hitEnd)
  else if String.eqb hitOrientation "-" then
    if hitStart <? hitEnd
    then Raise (CmscanFormatError (reverse_message hitStart hitEnd))
    else Ok (hitEnd, hitStart)
  else Raise (CmscanFormatError (strand_message hitOrientation i)).

(** Line 210: the program is fixed inside [_parse_records]. *)
Definition program : string := "CMSCAN".

Definition setattr (attributes : attributes_t) (key value : string)
  : attributes_t :=
  dict_set String.eqb attributes key value.

(** Lines 285-297, for a value [prog] of the variable [program]. *)
Definition name_attributes (prog : string) (fields : list string)
    (attributes : attributes_t) : result attributes_t :=
  if String.eqb prog "CMSEARCH" then
    v <- getitem fields 0 ;;
    let attributes := setattr attributes "SEQUENCE_NAME" v in
    v <- getitem fields 1 ;;
    let attributes := setattr attributes "SEQUENCE_ACCESSION" v in
    v <- getitem fields 2 ;;
    let attributes := setattr attributes "MODEL_NAME" v in
    v <- getitem fields 3 ;;
    Ok (setattr attributes "MODEL_ACCESSION" v)
  else if String.eqb prog "CMSCAN" then
    v <- getitem fields 2 ;;
    let attributes := setattr attributes "SEQUENCE_NAME" v in
    v <- getitem fields 3 ;;
    let attributes := setattr attributes "SEQUENCE_ACCESSION" v in
    v <- getitem fields 0 ;;
    let attributes := setattr attributes "MODEL_NAME" v in
    v <- getitem fields 1 ;;
    Ok (setattr attributes "MODEL_ACCESSION" v)
  else Raise (CmscanFormatError program_message).

(** Lines 301-306: the keys handled before the loop over [_COLUMNS]. *)
Definition handled : list string :=
  ["SEQUENCE_START_POSITION"; "SEQUENCE_END_POSITION"; "SEQUENCE_NAME";
   "SEQUENCE_ACCESSION"; "MODEL_NAME"; "MODEL_ACCESSION"].

(** Lines 300-308. *)
Fixpoint copy_columns (keys fields : list string) (attributes : attributes_t)
  : result attributes_t :=
  match keys with
  | [] => Ok attributes
  | key :: keys' =>
      if existsb (String.eqb key) handled
      then copy_columns keys' fields attributes
      else
        i <- index _COLUMNS key ;;
        v <- getitem fields i ;;
        copy_columns keys' fields (setattr attributes key v)
  end.

(** Lines 215-308 on the fields of a line. *)
Definition parse_fields (fields : list string) : result (attributes_t * interval) :=
  let attributes := [] in
  iv <- hit_interval fields ;;
  attributes <- name_attributes program fields attributes ;;
  attributes <- copy_columns _COLUMNS fields attributes ;;
  Ok (attributes, iv).

(** Lines 215-308: one line that is not a comment. *)
Definition parse_hit (line : string) : result (attributes_t * interval) :=
  parse_fields (Py.split line).

(** A hit together with [attributes['SEQUENCE_NAME']], read at line 313. *)
Definition named_hit (line : string)
  : result (attributes_t * interval * string) :=
  hit <- parse_hit line ;;
  name <- dict_get String.eqb (fst hit) "SEQUENCE_NAME" ;;
  Ok (hit, name).

(** Lines 313-314: [currentsequence] is [False] ([None]) or a string. *)
Definition sequence_changed (currentsequence : option string) (name : string)
  : bool :=
  match currentsequence with
  | None => false
  | Some c => negb (String.eqb c name)
  end.

(** Lines 213-325: the loop over the lines, with the cursor and the
    accumulator, and the final [yield].  The result is the list of the
    groups yielded and the exception that ended the generator, if any. *)
Fixpoint parse_loop (lines : list string) (currentsequence : option string)
    (annotations : annotations_t) : list annotations_t * option exception :=
  match lines with
  | [] => ([annotations], None)
  | line :: rest =>
      if Py.startswith line "#" then parse_loop rest currentsequence annotations
      else
        match named_hit line with
        | Raise e => ([], Some e)
        | Ok (attributes, iv, name) =>
            if sequence_changed currentsequence name then
              let (groups, e) :=
                parse_loop rest (Some name)
                  (dict_set Feature_eqb [] (Feature attributes) [iv]) in
              (annotations :: groups, e)
            else
              parse_loop rest (Some name)
                (dict_set Feature_eqb annotations (Feature attributes) [iv])
        end
  end.

(** Lines 197-325. *)
Definition _parse_records (fh : list string)
  : list annotations_t * option exception :=
  parse_loop (_line_generator fh true true) None [].

(** Modelled from the spec: [skbio.metadata.IntervalMetadata], the container
    built from a mapping of attribute sets to lists of intervals. *)
Record interval_metadata : Type := { features : annotations_t }.

(** The container types a caller can name. *)
Inductive constructor_t : Type :=
| IntervalMetadata
| other_constructor (name : string).

(** Keyword arguments, by name. *)
Definition kwargs_t : Type := list (string * string).

(** A call [_construct(record, constructor, **kwargs)], as at lines 188 and
    194, cannot bind its arguments when a keyword is named as one of the two
    positional parameters: Python raises [TypeError] before the body runs. *)
Definition keyword_collides (kwargs : kwargs_t) : bool :=
  existsb (fun kv => String.eqb (fst kv) "record"
                     || String.eqb (fst kv) "constructor") kwargs.

(** Lines 161-165, as the readers call it; [Ok None] is what the function
    returns when it ends without a [return]. *)
Definition _construct (record : annotations_t) (constructor : option constructor_t)
    (kwargs : kwargs_t) : result (option interval_metadata) :=
  if keyword_collides kwargs then Raise TypeError
  else
    let constructor :=
      match constructor with None => IntervalMetadata | Some c => c end in
    match constructor with
    | IntervalMetadata => Ok (Some {| features := record |})
    | other_constructor _ => Ok None
    end.

(** Line 188 on the records that the parser yields before it ends with [e]:
    an exception of [_construct] ends the reader at that record. *)
Fixpoint construct_each (records : list annotations_t) (e : option exception)
    (constructor : option constructor_t) (kwargs : kwargs_t)
  : list (option interval_metadata) * option exception :=
  match records with
  | [] => ([], e)
  | record :: rest =>
      match _construct record constructor kwargs with
      | Raise x => ([], Some x)
      | Ok object =>
          let (objects, e') := construct_each rest e constructor kwargs in
          (object :: objects, e')
      end
  end.

(** Lines 185-188. *)
Definition _cmscan_to_generator (fh : list string)
    (constructor : option constructor_t) (kwargs : kwargs_t)
  : list (option interval_metadata) * option exception :=
  let (records, e) := _parse_records fh in
  construct_each records e constructor kwargs.

(** ** Notions of the specification *)

(** A hit with the identifier of its sequence. *)
Definition hit_t : Type := (attributes_t * interval * string)%type.

Definition hit_name (h : hit_t) : string := snd h.

(** A line is a comment when it starts with [#] once stripped. *)
Definition is_comment (line : string) : bool := Py.startswith line "#".

(** The data lines of a file: stripped, neither blank nor a comment. *)
Definition data_lines (fh : list string) : list string :=
  filter (fun line => negb (is_comment line)) (_line_generator fh true true).

(** The hits of the data lines up to the first line that raises. *)
Fixpoint hits_until_error (lines : list string) : list hit_t * option exception :=
  match lines with
  | [] => ([], None)
  | line :: rest =>
      match named_hit line with
      | Raise e => ([], Some e)
      | Ok h => let (hs, e) := hits_until_error rest in (h :: hs, e)
      end
  end.

(** The maximal runs of consecutive hits that share a sequence identifier. *)
Fixpoint runs (hs : list hit_t) : list (list hit_t) :=
  match hs with
  | [] => []
  | h :: t =>
      match runs t with
      | (h' :: r) :: rs =>
          if String.eqb (hit_name h) (hit_name h')
          then (h :: h' :: r) :: rs
          else [h] :: (h' :: r) :: rs
      | _ => [[h]]
      end
  end.

(** The number of places where two consecutive hits differ in identifier. *)
Fixpoint changes (hs : list hit_t) : nat :=
  match hs with
  | h :: ((h' :: _) as t) =>
      (if String.eqb (hit_name h) (hit_name h') then 0 else 1) + changes t
  | _ => 0
  end.

(** The group of a run: each hit assigned into the accumulator in turn. *)
Definition add_hit (annotations : annotations_t) (h : hit_t) : annotations_t :=
  dict_set Feature_eqb annotations (Feature (fst (fst h))) [snd (fst h)].

Definition group_of (run : list hit_t) : annotations_t :=
  fold_left add_hit run [].

(** The runs that are yielded: all of them when the input is exhausted (the
    empty accumulator when there is no hit), all but the run being
    accumulated when a line raises. *)
Definition emitted (hs : list hit_t) (e : option exception) : list (list hit_t) :=
  match e with
  | None => match runs hs with [] => [[]] | rs => rs end
  | Some _ => removelast (runs hs)
  end.

(** All the hits of a run carry the identifier [c]. *)
Definition uniform (c : string) (run : list hit_t) : Prop :=
  Forall (fun h => hit_name h = c) run.

(** Consecutive runs differ in identifier, and no run is empty. *)
Fixpoint separated (rs : list (list hit_t)) : Prop :=
  match rs with
  | [] => True
  | r :: rs' =>
      (exists h r', r = h :: r' /\ uniform (hit_name h) r
                    /\ match rs' with
                       | (h' :: _) :: _ => hit_name h <> hit_name h'
                       | _ => True
                       end)
      /\ separated rs'
  end.

(** The number of entries over all groups. *)
Definition count_entries (groups : list annotations_t) : nat :=
  fold_right (fun g n => (List.length g + n)%nat) 0%nat groups.

(** A line is blank when nothing is left of it once stripped. *)
Definition is_blank (line : string) : bool := negb (Py.nonempty (Py.strip line)).

Fixpoint leading_blanks (fh : list string) : nat :=
  match fh with
  | line :: rest => if is_blank line then S (leading_blanks rest) else 0%nat
  | [] => 0%nat
  end.

Definition first_nonblank (fh : list string) : option string :=
  find (fun line => negb (is_blank line)) fh.

(** The attributes of a line of at least 18 fields under CMSCAN. *)
Definition cmscan_attributes (fields : list string) : attributes_t :=
  let f i := nth i fields EmptyString in
  [("SEQUENCE_NAME", f 2%nat); ("SEQUENCE_ACCESSION", f 3%nat);
   ("MODEL_NAME", f 0%nat); ("MODEL_ACCESSION", f 1%nat);
   ("TYPE_OF_MODEL", f 4%nat); ("MODEL_START_POSITION", f 5%nat);
   ("MODEL_END_POSITION", f 6%nat); ("STRAND", f 9%nat);
   ("TRUNCATED", f 10%nat); ("PASS", f 11%nat); ("GC_CONTENT", f 12%nat);
   ("BIAS", f 13%nat); ("BITSCORE", f 14%nat); ("EVALUE", f 15%nat);
   ("INC", f 16%nat); ("DESCRIPTION", f 17%nat)].

(** The hits of a file, and the exception that ends its parsing, if any. *)
Definition hits (fh : list string) : list hit_t :=
  fst (hits_until_error (data_lines fh)).

Definition failure (fh : list string) : option exception :=
  snd (hits_until_error (data_lines fh)).

(** The loop of [_parse_records] on the hits instead of the lines. *)
Fixpoint group_loop (hs : list hit_t) (currentsequence : option string)
    (annotations : annotations_t) (e : option exception) : list annotations_t :=
  match hs with
  | [] => match e with None => [annotations] | Some _ => [] end
  | h :: hs' =>
      if sequence_changed currentsequence (hit_name h)
      then annotations :: group_loop hs' (Some (hit_name h)) (add_hit [] h) e
      else group_loop hs' (Some (hit_name h)) (add_hit annotations h) e
  end.

(** [message] holds [text] as a substring. *)
Definition mentions (message text : string) : Prop :=
  exists before after, message = before ++ text ++ after.

(** ** The inputs of the examples *)

(** Lines 23 and 24 of the module: the first two hits of the example of its
    documentation. *)
Definition line_23 : string :=
  "LSU_rRNA_bacteria      RF02541   gi|15829254|ref|NC_002695.1| -          cm        1     2925  4977823  4980727      +    no    1 0.53  45.4 2889.8         0 !   -".

Definition line_24 : string :=
  "LSU_rRNA_bacteria      RF02541   gi|15829254|ref|NC_002695.1| -          cm        1     2925  5018849  5021753      +    no    1 0.53  45.4 2889.8         0 !   -".

(** The end of a line. *)
Definition nl : string := String (ascii_of_nat 10) EmptyString.

(** A hit on the reverse strand, from 500 down to 300. *)
Definition line_reverse : string :=
  "tRNA RF00005 seq1 - cm 1 71 500 300 - no 1 0.55 0.0 60.1 1.2e-12 ! -".

(** Lines whose start or end is the literal [abc]. *)
Definition line_short_bad_start : string :=
  "tRNA RF00005 seq1 - cm 1 71 abc".

Definition line_bad_start : string :=
  "tRNA RF00005 seq1 - cm 1 71 abc 300 + no 1 0.55 0.0 60.1 1.2e-12 ! -".

Definition line_bad_end : string :=
  "tRNA RF00005 seq1 - cm 1 71 300 abc + no 1 0.55 0.0 60.1 1.2e-12 ! -".

(** The superscript two, U+00B2. *)
Definition superscript_two : string := String (ascii_of_nat 178) EmptyString.

Definition line_superscript_start : string :=
  "tRNA RF00005 seq1 - cm 1 71 " ++ superscript_two
  ++ " 300 + no 1 0.55 0.0 60.1 1.2e-12 ! -".

(** Line 23 with a description of five words. *)
Definition line_description : string :=
  "LSU_rRNA_bacteria      RF02541   gi|15829254|ref|NC_002695.1| -          cm        1     2925  4977823  4980727      +    no    1 0.53  45.4 2889.8         0 !   Bacterial large subunit ribosomal RNA".

(** A line of [cmsearch]: the sequence in columns 0-1, the model in 2-3. *)
Definition line_cmsearch : string :=
  "gi|15829254|ref|NC_002695.1| -         LSU_rRNA_bacteria    RF02541   cm        1     2925  4977823  4980727      +    no    1 0.53  45.4 2889.8         0 !   -".

(** A hit on another sequence. *)
Definition line_other_sequence : string :=
  "tRNA                   RF00005   gi|00000001|ref|NC_000001.1| -          cm        1       71      500      300      -    no    1 0.55   0.0   60.1   1.2e-12 !   -".

(** Line 21 of the module: the header of the table. *)
Definition header : string :=
  "#target name           accession query name                   accession mdl mdl from   mdl to seq from   seq to strand trunc pass   gc  bias  score   E-value inc description of target".

(** A file of two comments and a blank line. *)
Definition comments_only : list string := [header ++ nl; nl; "   # end " ++ nl].

(** Six blank lines before the header: the sniffer answers false. *)
Definition six_blanks_then_header : list string :=
  [nl; nl; nl; nl; nl; nl; header ++ nl].

(** ** The reader of one record *)

(** Modelled from the spec: [skbio.io.format._base._get_nth_sequence],
    imported as [_get_nth_record], the helper that extracts the Nth element
    of a sequence.  It rejects a number below 1, pulls [rec_num] elements
    from the generator and no more, and returns the last of them; an
    exception of the generator on the way is raised, and a generator that
    ends before gives [ValueError]. *)
Definition _get_nth_record {A : Type} (generator : list A * option exception)
    (rec_num : Z) : result A :=
  if rec_num <? 1 then Raise ValueError
  else
    match nth_error (fst generator) (Z.to_nat (rec_num - 1)) with
    | Some record => Ok record
    | None =>
        match snd generator with
        | Some e => Raise e
        | None => Raise ValueError
        end
    end.

(** Lines 191-194. *)
Definition _cmscan_to_metadata (fh : list string) (rec_num : Z)
    (kwargs : kwargs_t) : result (option interval_metadata) :=
  record <- _get_nth_record (_parse_records fh) rec_num ;;
  _construct record (Some IntervalMetadata) kwargs.

(** ** Further notions *)

(** The keys of the attributes of a hit, in the order of their assignment. *)
Definition attribute_keys : list string :=
  ["SEQUENCE_NAME"; "SEQUENCE_ACCESSION"; "MODEL_NAME"; "MODEL_ACCESSION";
   "TYPE_OF_MODEL"; "MODEL_START_POSITION"; "MODEL_END_POSITION"; "STRAND";
   "TRUNCATED"; "PASS"; "GC_CONTENT"; "BIAS"; "BITSCORE"; "EVALUE"; "INC";
   "DESCRIPTION"].

(** An entry of a group as the parser builds it: the 16 attributes as key
    and one ascending interval without negative bound as value. *)
Definition entry_ok (entry : attributes_t * list interval) : Prop :=
  map fst (fst entry) = attribute_keys
  /\ exists lo hi, snd entry = [(lo, hi)] /\ 0 <= lo <= hi.

(** The key and the interval of a hit. *)
Definition hit_key (h : hit_t) : attributes_t := fst (fst h).

Definition hit_interval_of (h : hit_t) : interval := snd (fst h).

(** No two hits of the run have equal attributes. *)
Definition keys_distinct (run : list hit_t) : Prop := NoDup (map hit_key run).

(** A line that the record parser skips: blank, or a comment once stripped. *)
Definition skipped (line : string) : Prop :=
  is_blank line = true \/ is_comment (Py.strip line) = true.

(** A file of two hits on one sequence and one on another. *)
Definition two_sequences : list string :=
  [header ++ nl; line_23 ++ nl; line_description ++ nl; line_other_sequence ++ nl].

(** A line of strand [-] whose start is below its end, and a line of an
    unknown strand. *)
Definition line_reverse_ascending : string :=
  "tRNA RF00005 seq1 - cm 1 71 300 500 - no 1 0.55 0.0 60.1 1.2e-12 ! -".

Definition line_unknown_strand : string :=
  "tRNA RF00005 seq1 - cm 1 71 300 500 x no 1 0.55 0.0 60.1 1.2e-12 ! -".

(** The hits of lines 23 and 24. *)
Definition hit_23 : hit_t :=
  (cmscan_attributes (Py.split line_23), (4977823, 4980727),
   "gi|15829254|ref|NC_002695.1|").

Definition hit_24 : hit_t :=
  (cmscan_attributes (Py.split line_24), (5018849, 5021753),
   "gi|15829254|ref|NC_002695.1|").

(** The container of a group. *)
Definition container (g : annotations_t) : option interval_metadata :=
  Some {| features := g |}.

(** A line of strand [+] whose start is above its end, a line of strand [+]
    of 12 fields, and a line of three fields. *)
Definition line_forward_descending : string :=
  "tRNA RF00005 seq1 - cm 1 71 500 300 + no 1 0.55 0.0 60.1 1.2e-12 ! -".

Definition line_forward_short : string :=
  "tRNA RF00005 seq1 - cm 1 71 300 500 + no 1".

Definition line_three_fields : string := "tRNA RF00005 seq1".

(** ** Tactics *)

(** The first 18 fields of a line that has them. *)
Ltac split_field fields :=
  destruct fields as [|? fields]; [simpl in *; lia|].

Ltac split_fields fields :=
  do 18 (split_field fields).

(** ** Lemmas on the Python primitives *)

Lemma isdecimal_isdigit c : Py.isdecimal_char c = true -> Py.isdigit_char c = true.
Proof.
  unfold Py.isdigit_char. intros ->. reflexivity.
Qed.

Lemma int_from_digits s : forall acc n,
  0 <= acc -> int_from acc s = Some n ->
  Py.all_chars Py.isdigit_char s = true /\ 0 <= n.
Proof.
  induction s as [|c r IH]; intros acc n Hacc H; cbn [int_from Py.all_chars] in *.
  - inversion H; subst. split; [reflexivity | assumption].
  - destruct (Py.isdecimal_char c) eqn:Hc; [|discriminate].
    rewrite (isdecimal_isdigit _ Hc). cbn [andb].
    apply IH in H; [assumption|].
    unfold Py.isdecimal_char in Hc. apply andb_prop in Hc as [Hlo _].
    apply N.leb_le in Hlo. lia.
Qed.

Lemma int_ok_isdigit s n : int s = Ok n -> Py.isdigit s = true /\ 0 <= n.
Proof.
  unfold int, Py.isdigit. destruct (Py.nonempty s); [|discriminate].
  destruct (int_from 0 s) as [m|] eqn:H; [|discriminate].
  intros [= <-]. apply int_from_digits in H; [|lia]. simpl. exact H.
Qed.

Lemma index_start : index _COLUMNS "SEQUENCE_START_POSITION" = Ok 7%nat.
Proof. reflexivity. Qed.

Lemma index_end : index _COLUMNS "SEQUENCE_END_POSITION" = Ok 8%nat.
Proof. reflexivity. Qed.

Lemma index_strand : index _COLUMNS "STRAND" = Ok 9%nat.
Proof. reflexivity. Qed.

(** [hit_interval] with the three column indices computed. *)
Lemma hit_interval_columns fields :
  hit_interval fields =
  (field <- getitem fields 7 ;;
   hitStart <- (if Py.isdigit field then int field
                else Raise (CmscanFormatError (start_message 7 field))) ;;
   field <- getitem fields 8 ;;
   hitEnd <- (if Py.isdigit field then int field else Raise TypeError) ;;
   hitOrientation <- getitem fields 9 ;;
   if String.eqb hitOrientation "+" then
     if hitStart >? hitEnd
     then Raise (CmscanFormatError (forward_message hitStart hitEnd))
     else Ok (hitStart, hitEnd)
   else if String.eqb hitOrientation "-" then
     if hitStart <? hitEnd
     then Raise (CmscanFormatError (reverse_message hitStart hitEnd))
     else Ok (hitEnd, hitStart)
   else Raise (CmscanFormatError (strand_message hitOrientation 9))).
Proof. reflexivity. Qed.

Lemma getitem_nth {A} (l : list A) i a : nth_error l i = Some a -> getitem l i = Ok a.
Proof. unfold getitem. intros ->. reflexivity. Qed.

(** The coordinates of a line whose start and end are decimal numbers. *)
Lemma hit_interval_numbers fields a b o s e :
  nth_error fields 7 = Some a -> nth_error fields 8 = Some b ->
  nth_error fields 9 = Some o -> int a = Ok s -> int b = Ok e ->
  hit_interval fields =
  if String.eqb o "+" then
    if s >? e then Raise (CmscanFormatError (forward_message s e)) else Ok (s, e)
  else if String.eqb o "-" then
    if s <? e then Raise (CmscanFormatError (reverse_message s e)) else Ok (e, s)
  else Raise (CmscanFormatError (strand_message o 9)).
Proof.
  intros H7 H8 H9 Ha Hb. rewrite hit_interval_columns.
  rewrite (getitem_nth _ _ _ H7), (getitem_nth _ _ _ H8), (getitem_nth _ _ _ H9).
  destruct (int_ok_isdigit _ _ Ha) as [Da _], (int_ok_isdigit _ _ Hb) as [Db _].
  cbn [bind]. rewrite Da, Ha. cbn [bind]. rewrite Db, Hb. reflexivity.
Qed.

(** On at least 18 fields the attributes are those of [cmscan_attributes]. *)
Lemma attributes_of_long_line fields :
  (18 <= List.length fields)%nat ->
  (attributes <- name_attributes program fields [] ;;
   copy_columns _COLUMNS fields attributes) = Ok (cmscan_attributes fields).
Proof.
  intros H. split_fields fields. reflexivity.
Qed.

Lemma parse_fields_long fields :
  (18 <= List.length fields)%nat ->
  parse_fields fields =
  (iv <- hit_interval fields ;; Ok (cmscan_attributes fields, iv)).
Proof.
  intros H. unfold parse_fields.
  destruct (hit_interval fields) as [iv|e]; [|reflexivity].
  cbn [bind].
  pose proof (attributes_of_long_line fields H) as E.
  destruct (name_attributes program fields []) as [attrs|e]; [|discriminate].
  cbn [bind] in *. rewrite E. reflexivity.
Qed.

Lemma parse_hit_numbers line a b o s e :
  (18 <= List.length (Py.split line))%nat ->
  nth_error (Py.split line) 7 = Some a -> nth_error (Py.split line) 8 = Some b ->
  nth_error (Py.split line) 9 = Some o -> int a = Ok s -> int b = Ok e ->
  parse_hit line =
  (iv <- (if String.eqb o "+" then
            if s >? e then Raise (CmscanFormatError (forward_message s e))
            else Ok (s, e)
          else if String.eqb o "-" then
            if s <? e then Raise (CmscanFormatError (reverse_message s e))
            else Ok (e, s)
          else Raise (CmscanFormatError (strand_message o 9))) ;;
   Ok (cmscan_attributes (Py.split line), iv)).
Proof.
  intros Hlen H7 H8 H9 Ha Hb. unfold parse_hit.
  rewrite (parse_fields_long _ Hlen).
  rewrite (hit_interval_numbers _ _ _ _ _ _ H7 H8 H9 Ha Hb). reflexivity.
Qed.

Lemma append_assoc (s1 s2 s3 : string) : (s1 ++ s2) ++ s3 = s1 ++ (s2 ++ s3).
Proof.
  induction s1 as [|c s1 IH]; simpl; [reflexivity | now rewrite IH].
Qed.

Lemma forward_message_mentions s e :
  mentions (forward_message s e) "reverse strand".
Proof.
  exists ("On the forward strand (+), start position of a hit must always be smaller than its end position. This is not true for the hit between"
          ++ " " ++ Py.fmt_i s ++ " " ++ "and" ++ " " ++ Py.fmt_i e ++ " "
          ++ ". It might be, that this hit is in fact on the "),
         ". Please check strand orientation and positions.".
  unfold forward_message. rewrite !append_assoc. reflexivity.
Qed.

(** ** Coordinates and strand *)

(** A line of strand [-] whose start is not below its end gives the hit
    with the bounds swapped, and the attribute [STRAND] holds [-]. *)
Lemma parse_hit_reverse (line a b : string) (s e : Z) :
  (18 <= List.length (Py.split line))%nat ->
  nth_error (Py.split line) 7 = Some a ->
  nth_error (Py.split line) 8 = Some b ->
  nth_error (Py.split line) 9 = Some "-" ->
  int a = Ok s -> int b = Ok e ->
  s >= e ->
  parse_hit line = Ok (cmscan_attributes (Py.split line), (e, s))
  /\ dict_get String.eqb (cmscan_attributes (Py.split line)) "STRAND" = Ok "-".
Proof.
  intros Hlen H7 H8 H9 Ha Hb Hse. split.
  - rewrite (parse_hit_numbers _ _ _ _ _ _ Hlen H7 H8 H9 Ha Hb).
    cbn [String.eqb Ascii.eqb Bool.eqb].
    destruct (s <? e) eqn:Hlt; [apply Z.ltb_lt in Hlt; lia | reflexivity].
  - unfold cmscan_attributes. cbn.
    rewrite (nth_error_nth _ _ _ H9). reflexivity.
Qed.

(** A line of strand [+] raises the format error of the forward strand
    when its start is above its end and gives the hit with the bounds in
    their order otherwise. *)
Lemma parse_hit_forward (line a b : string) (s e : Z) :
  (18 <= List.length (Py.split line))%nat ->
  nth_error (Py.split line) 7 = Some a ->
  nth_error (Py.split line) 8 = Some b ->
  nth_error (Py.split line) 9 = Some "+" ->
  int a = Ok s -> int b = Ok e ->
  parse_hit line
  = if s >? e then Raise (CmscanFormatError (forward_message s e))
    else Ok (cmscan_attributes (Py.split line), (s, e)).
Proof.
  intros Hlen H7 H8 H9 Ha Hb.
  rewrite (parse_hit_numbers _ _ _ _ _ _ Hlen H7 H8 H9 Ha Hb).
  cbn [String.eqb Ascii.eqb Bool.eqb]. destruct (s >? e); reflexivity.
Qed.

(** ** Lines that are too short *)

Lemma attributes_of_short_line fields :
  (List.length fields < 18)%nat ->
  (attributes <- name_attributes program fields [] ;;
   copy_columns _COLUMNS fields attributes) = Raise IndexError.
Proof.
  intros H.
  do 18 (destruct fields as [|? fields]; [reflexivity|]).
  simpl in H. lia.
Qed.

Lemma parse_fields_short fields :
  (List.length fields < 18)%nat ->
  parse_fields fields = (iv <- hit_interval fields ;; Raise IndexError).
Proof.
  intros H. unfold parse_fields.
  destruct (hit_interval fields) as [iv|e]; [|reflexivity].
  cbn [bind].
  pose proof (attributes_of_short_line fields H) as E.
  destruct (name_attributes program fields []) as [attrs|e'].
  - cbn [bind] in *. rewrite E. reflexivity.
  - cbn [bind] in *. congruence.
Qed.


(** A line that parses has at least 18 fields. *)
Lemma parse_hit_ok_long line hit :
  parse_hit line = Ok hit -> (18 <= List.length (Py.split line))%nat.
Proof.
  intros H. destruct (Nat.lt_ge_cases (List.length (Py.split line)) 18) as [L|G];
    [|exact G].
  unfold parse_hit in H. rewrite (parse_fields_short _ L) in H.
  destruct (hit_interval (Py.split line)); discriminate.
Qed.

(** The shape of every hit: the attributes of [cmscan_attributes]. *)
Lemma parse_hit_ok line attributes iv :
  parse_hit line = Ok (attributes, iv) ->
  attributes = cmscan_attributes (Py.split line)
  /\ hit_interval (Py.split line) = Ok iv.
Proof.
  intros H. pose proof (parse_hit_ok_long _ _ H) as L.
  unfold parse_hit in H. rewrite (parse_fields_long _ L) in H.
  destruct (hit_interval (Py.split line)) as [iv'|]; [|discriminate].
  cbn [bind] in H. inversion H; subst. split; reflexivity.
Qed.

(** Every attribute set has the same keys in the same order, so that
    comparing two features item by item compares them as mappings. *)
Lemma parse_hit_keys line attributes iv :
  parse_hit line = Ok (attributes, iv) ->
  map fst attributes =
  ["SEQUENCE_NAME"; "SEQUENCE_ACCESSION"; "MODEL_NAME"; "MODEL_ACCESSION";
   "TYPE_OF_MODEL"; "MODEL_START_POSITION"; "MODEL_END_POSITION"; "STRAND";
   "TRUNCATED"; "PASS"; "GC_CONTENT"; "BIAS"; "BITSCORE"; "EVALUE"; "INC";
   "DESCRIPTION"].
Proof.
  intros H. apply parse_hit_ok in H as [-> _]. reflexivity.
Qed.

Lemma Feature_eqb_eq a b : Feature_eqb a b = true <-> a = b.
Proof.
  revert b. induction a as [|[k v] a IH]; intros [|[k' v'] b]; simpl;
    try (split; [discriminate | congruence]); [tauto|].
  rewrite !andb_true_iff, !String.eqb_eq, IH.
  split; [intros [[-> ->] ->]; reflexivity | intros [= -> -> ->]; auto].
Qed.




(** ** The checks on the start and the end *)

(** A start that is not made of digits raises the format error that names
    column 7 and the field. *)
Lemma bad_start_raises fields a :
  nth_error fields 7 = Some a -> Py.isdigit a = false ->
  parse_fields fields = Raise (CmscanFormatError (start_message 7 a)).
Proof.
  intros H7 Ha. unfold parse_fields. rewrite hit_interval_columns.
  rewrite (getitem_nth _ _ _ H7). cbn [bind]. rewrite Ha. reflexivity.
Qed.

Lemma start_message_names_column a :
  start_message 7 a
  = "Column 7 must be an integer value for the start position of the hit. Here, it is '"
    ++ a ++ "'.".
Proof. reflexivity. Qed.

(** An end that is not made of digits, after a start that is a number,
    raises [TypeError]: the message of lines 236-243 cannot be formatted. *)
Lemma bad_end_raises fields a b s :
  nth_error fields 7 = Some a -> int a = Ok s ->
  nth_error fields 8 = Some b -> Py.isdigit b = false ->
  parse_fields fields = Raise TypeError.
Proof.
  intros H7 Ha H8 Hb. unfold parse_fields. rewrite hit_interval_columns.
  rewrite (getitem_nth _ _ _ H7), (getitem_nth _ _ _ H8).
  destruct (int_ok_isdigit _ _ Ha) as [Da _].
  cbn [bind]. rewrite Da, Ha. cbn [bind]. rewrite Hb. reflexivity.
Qed.

(** The interval of a hit holds no negative bound. *)
Lemma hit_interval_nonnegative fields lo hi :
  hit_interval fields = Ok (lo, hi) -> 0 <= lo <= hi.
Proof.
  rewrite hit_interval_columns. unfold getitem.
  destruct (nth_error fields 7) as [a|]; [|discriminate]. cbn [bind].
  destruct (Py.isdigit a); [|discriminate].
  destruct (int a) as [s|] eqn:Ha; [|discriminate]. cbn [bind].
  destruct (nth_error fields 8) as [b|]; [|discriminate]. cbn [bind].
  destruct (Py.isdigit b); [|discriminate].
  destruct (int b) as [e|] eqn:Hb; [|discriminate]. cbn [bind].
  destruct (nth_error fields 9) as [o|]; [|discriminate]. cbn [bind].
  apply int_ok_isdigit in Ha as [_ Hs]. apply int_ok_isdigit in Hb as [_ He].
  destruct (String.eqb o "+").
  - destruct (s >? e) eqn:G; [discriminate|]. intros [= <- <-].
    pose proof (Zgt_cases s e) as C. rewrite G in C. lia.
  - destruct (String.eqb o "-"); [|discriminate].
    destruct (s <? e) eqn:G; [discriminate|]. intros [= <- <-].
    apply Z.ltb_ge in G. lia.
Qed.

Lemma superscript_start_raises :
  Py.isdigit superscript_two = true
  /\ parse_hit line_superscript_start = Raise ValueError.
Proof. split; vm_compute; reflexivity. Qed.

(** C5: the literal [abc] as the start raises the format error that names
    column 7 and the literal, but the same literal as the end raises
    [TypeError] and no format error: the generator ends with it. *)
Theorem bad_end_is_not_a_format_error :
  parse_hit line_bad_start
  = Raise (CmscanFormatError
      "Column 7 must be an integer value for the start position of the hit. Here, it is 'abc'.")
  /\ parse_hit line_bad_end = Raise TypeError
  /\ _parse_records [line_bad_end ++ nl] = ([], Some TypeError)
  /\ is_format_error TypeError = false.
Proof.
  repeat split; vm_compute; reflexivity.
Qed.

(** ** The description *)

(** The description of a hit is the 18th field of the line alone. *)
Lemma description_is_field_17 line attributes iv :
  parse_hit line = Ok (attributes, iv) ->
  dict_get String.eqb attributes "DESCRIPTION" = getitem (Py.split line) 17.
Proof.
  intros H. pose proof (parse_hit_ok_long _ _ H) as L.
  apply parse_hit_ok in H as [-> _].
  change (dict_get String.eqb (cmscan_attributes (Py.split line)) "DESCRIPTION")
    with (@Ok string (nth 17 (Py.split line) EmptyString)).
  destruct (nth_error (Py.split line) 17) as [d|] eqn:E.
  - rewrite (getitem_nth _ _ _ E), (nth_error_nth _ _ _ E). reflexivity.
  - apply nth_error_None in E. lia.
Qed.

(** C2: on a line whose description is [Bacterial large subunit ribosomal
    RNA] the attribute [DESCRIPTION] is [Bacterial]; the four tokens after
    the 18th field are dropped. *)
Theorem description_keeps_first_token :
  exists attributes,
    parse_hit line_description = Ok (attributes, (4977823, 4980727))
    /\ dict_get String.eqb attributes "DESCRIPTION" = Ok "Bacterial"
    /\ skipn 17 (Py.split line_description)
       = ["Bacterial"; "large"; "subunit"; "ribosomal"; "RNA"].
Proof.
  eexists. split; [vm_compute; reflexivity|].
  split; vm_compute; reflexivity.
Qed.

(** ** Hits that share their attributes *)

(** C1: the first two lines of the example of the documentation differ in
    start and end only; their attributes are equal, the second assignment
    replaces the first, and the group holds one entry for two data lines. *)
Theorem equal_attributes_overwrite :
  _parse_records [line_23 ++ nl; line_24 ++ nl]
  = ([[(cmscan_attributes (Py.split line_23), [(5018849, 5021753)])]], None)
  /\ List.length (data_lines [line_23 ++ nl; line_24 ++ nl]) = 2%nat
  /\ count_entries (fst (_parse_records [line_23 ++ nl; line_24 ++ nl])) = 1%nat.
Proof.
  repeat split; vm_compute; reflexivity.
Qed.

(** ** The program variant *)

Lemma name_attributes_cmscan fields attributes :
  name_attributes "CMSCAN" fields [] = Ok attributes ->
  dict_get String.eqb attributes "SEQUENCE_NAME" = getitem fields 2
  /\ dict_get String.eqb attributes "SEQUENCE_ACCESSION" = getitem fields 3
  /\ dict_get String.eqb attributes "MODEL_NAME" = getitem fields 0
  /\ dict_get String.eqb attributes "MODEL_ACCESSION" = getitem fields 1.
Proof.
  destruct fields as [|f0 [|f1 [|f2 [|f3 fields]]]]; try discriminate.
  intros [= <-]. repeat split.
Qed.

Lemma name_attributes_cmsearch fields attributes :
  name_attributes "CMSEARCH" fields [] = Ok attributes ->
  dict_get String.eqb attributes "SEQUENCE_NAME" = getitem fields 0
  /\ dict_get String.eqb attributes "SEQUENCE_ACCESSION" = getitem fields 1
  /\ dict_get String.eqb attributes "MODEL_NAME" = getitem fields 2
  /\ dict_get String.eqb attributes "MODEL_ACCESSION" = getitem fields 3.
Proof.
  destruct fields as [|f0 [|f1 [|f2 [|f3 fields]]]]; try discriminate.
  intros [= <-]. repeat split.
Qed.

Lemma name_attributes_other prog fields attributes :
  prog <> "CMSEARCH" -> prog <> "CMSCAN" ->
  name_attributes prog fields attributes
  = Raise (CmscanFormatError program_message).
Proof.
  intros H1 H2. unfold name_attributes.
  apply String.eqb_neq in H1, H2. rewrite H1, H2. reflexivity.
Qed.

Lemma construct_each_kwargs records e constructor kwargs :
  keyword_collides kwargs = false ->
  construct_each records e constructor kwargs
  = construct_each records e constructor [].
Proof.
  intros H. induction records as [|record rest IH]; [reflexivity|].
  cbn [construct_each]. unfold _construct. rewrite H, IH. reflexivity.
Qed.

(** The keyword arguments of the reader never reach the parser: unless one
    of them collides with a parameter of [_construct], they change nothing. *)
Lemma reader_ignores_kwargs fh constructor kwargs :
  keyword_collides kwargs = false ->
  _cmscan_to_generator fh constructor kwargs
  = _cmscan_to_generator fh constructor [].
Proof.
  intros H. unfold _cmscan_to_generator. destruct (_parse_records fh).
  apply construct_each_kwargs. exact H.
Qed.

(** C8: [_parse_records] takes the file handle alone and fixes the program
    to CMSCAN, so a line of [cmsearch] is read with the columns of
    [cmscan], whatever the caller passes to the reader: the name of the
    model becomes [SEQUENCE_NAME]. *)
Theorem program_is_not_selectable :
  program = "CMSCAN"
  /\ exists attributes,
       _parse_records [line_cmsearch ++ nl]
       = ([[(attributes, [(4977823, 4980727)])]], None)
       /\ _cmscan_to_generator [line_cmsearch ++ nl] None [("program", "CMSEARCH")]
          = ([Some {| features := [(attributes, [(4977823, 4980727)])] |}], None)
       /\ dict_get String.eqb attributes "SEQUENCE_NAME" = Ok "LSU_rRNA_bacteria"
       /\ dict_get String.eqb attributes "MODEL_NAME"
          = Ok "gi|15829254|ref|NC_002695.1|".
Proof.
  split; [reflexivity|]. eexists.
  split; [vm_compute; reflexivity|].
  split; [vm_compute; reflexivity|]. split; vm_compute; reflexivity.
Qed.

(** ** Grouping *)

Lemma parse_loop_group_loop lines : forall cur acc,
  parse_loop lines cur acc =
  (group_loop
     (fst (hits_until_error (filter (fun l => negb (is_comment l)) lines)))
     cur acc
     (snd (hits_until_error (filter (fun l => negb (is_comment l)) lines))),
   snd (hits_until_error (filter (fun l => negb (is_comment l)) lines))).
Proof.
  induction lines as [|line rest IH]; intros cur acc; [reflexivity|].
  cbn [parse_loop filter]. change (is_comment line) with (Py.startswith line "#").
  destruct (Py.startswith line "#"); cbn [negb]; [apply IH|].
  cbn [hits_until_error].
  destruct (named_hit line) as [[[attributes iv] name]|e]; [|reflexivity].
  destruct (hits_until_error (filter (fun l => negb (is_comment l)) rest))
    as [hs e] eqn:E.
  cbn [fst snd group_loop hit_name].
  destruct (sequence_changed cur name); rewrite IH; reflexivity.
Qed.

Lemma runs_cons h t : exists q rs, runs (h :: t) = (h :: q) :: rs.
Proof.
  cbn [runs]. destruct (runs t) as [|[|h' r] rs]; eauto.
  destruct (String.eqb (hit_name h) (hit_name h')); eauto.
Qed.

Lemma runs_cons_cons h h' t :
  runs (h :: h' :: t) =
  match runs (h' :: t) with
  | r :: rs =>
      if String.eqb (hit_name h) (hit_name h') then (h :: r) :: rs
      else [h] :: r :: rs
  | [] => [[h]]
  end.
Proof.
  destruct (runs_cons h' t) as (q & rs & E).
  change (runs (h :: h' :: t)) with
    (match runs (h' :: t) with
     | (h'' :: r) :: rs =>
         if String.eqb (hit_name h) (hit_name h'')
         then (h :: h'' :: r) :: rs
         else [h] :: (h'' :: r) :: rs
     | _ => [[h]]
     end).
  rewrite E. reflexivity.
Qed.

(** A run in progress followed by nothing, or by a hit of another
    identifier, is the first of the runs. *)
Lemma runs_app_uniform c r : forall tail,
  r <> [] -> uniform c r ->
  match tail with [] => True | h :: _ => hit_name h <> c end ->
  runs (r ++ tail) = r :: runs tail.
Proof.
  induction r as [|x r IH]; intros tail Hne Hu Ht; [congruence|].
  inversion Hu as [|? ? Hx Hr]; subst.
  destruct r as [|y r].
  - cbn [app]. destruct tail as [|h t]; [reflexivity|].
    rewrite runs_cons_cons. destruct (runs_cons h t) as (q & rs & E).
    rewrite E. apply not_eq_sym in Ht.
    apply String.eqb_neq in Ht. rewrite Ht. reflexivity.
  - change ((x :: y :: r) ++ tail)%list with (x :: y :: (r ++ tail))%list.
    rewrite runs_cons_cons.
    change (y :: r ++ tail)%list with ((y :: r) ++ tail)%list.
    rewrite (IH tail); [|discriminate|exact Hr|exact Ht].
    inversion Hr as [|? ? Hy _]; subst.
    rewrite Hy, String.eqb_refl. reflexivity.
Qed.

Lemma group_of_app r h : group_of (r ++ [h]) = add_hit (group_of r) h.
Proof. unfold group_of. rewrite fold_left_app. reflexivity. Qed.

Lemma group_loop_runs e hs : forall c r,
  r <> [] -> uniform c r ->
  group_loop hs (Some c) (group_of r) e = map group_of (emitted (r ++ hs) e).
Proof.
  induction hs as [|h hs IH]; intros c r Hne Hu.
  - unfold emitted. rewrite (runs_app_uniform c r [] Hne Hu I).
    destruct e; reflexivity.
  - cbn [group_loop sequence_changed].
    destruct (String.eqb c (hit_name h)) eqn:E; cbn [negb].
    + apply String.eqb_eq in E. rewrite <- group_of_app, <- E.
      rewrite (IH c (r ++ [h])%list).
      * rewrite <- app_assoc. reflexivity.
      * destruct r; discriminate.
      * apply Forall_app. split; [exact Hu|]. constructor; [symmetry; exact E|constructor].
    + apply String.eqb_neq in E.
      change (add_hit [] h) with (group_of [h]).
      rewrite (IH (hit_name h) [h]);
        [|discriminate|constructor; [reflexivity|constructor]].
      unfold emitted.
      rewrite (runs_app_uniform c r (h :: hs) Hne Hu (not_eq_sym E)).
      change ([h] ++ hs)%list with (h :: hs).
      destruct (runs_cons h hs) as (q & rs & R). rewrite R.
      destruct e; reflexivity.
Qed.

Lemma group_loop_start e hs :
  group_loop hs None [] e = map group_of (emitted hs e).
Proof.
  destruct hs as [|h hs].
  - destruct e; reflexivity.
  - cbn [group_loop sequence_changed].
    change (add_hit [] h) with (group_of [h]).
    rewrite (group_loop_runs e hs (hit_name h) [h]);
      [reflexivity|discriminate|constructor; [reflexivity|constructor]].
Qed.

Lemma parse_records_emitted fh :
  _parse_records fh = (map group_of (emitted (hits fh) (failure fh)), failure fh).
Proof.
  unfold _parse_records. rewrite parse_loop_group_loop.
  fold (data_lines fh). fold (hits fh). fold (failure fh).
  rewrite group_loop_start. reflexivity.
Qed.

Lemma concat_runs hs : List.concat (runs hs) = hs.
Proof.
  induction hs as [|h [|h' t] IH]; [reflexivity|reflexivity|].
  rewrite runs_cons_cons. destruct (runs_cons h' t) as (q & rs & E).
  rewrite E in *. destruct (String.eqb (hit_name h) (hit_name h'));
    cbn [List.concat app] in *; rewrite IH; reflexivity.
Qed.

Lemma separated_runs hs : separated (runs hs).
Proof.
  induction hs as [|h [|h' t] IH].
  - exact I.
  - cbn. split; [|exact I]. exists h, []. repeat split.
    constructor; [reflexivity|constructor].
  - rewrite runs_cons_cons. destruct (runs_cons h' t) as (q & rs & E).
    rewrite E in *. destruct IH as [(x & r' & Hx & Hu & Hb) Hs].
    inversion Hx; subst x r'.
    destruct (String.eqb (hit_name h) (hit_name h')) eqn:N.
    + apply String.eqb_eq in N. split; [|exact Hs].
      exists h, (h' :: q). split; [reflexivity|]. rewrite N. split; [|exact Hb].
      constructor; [exact N|exact Hu].
    + apply String.eqb_neq in N. split.
      * exists h, []. split; [reflexivity|]. split; [|exact N].
        constructor; [reflexivity|constructor].
      * split; [|exact Hs]. exists h', q. repeat split; assumption.
Qed.

Lemma changes_cons_cons h h' t :
  changes (h :: h' :: t) =
  ((if String.eqb (hit_name h) (hit_name h') then 0 else 1) + changes (h' :: t))%nat.
Proof. reflexivity. Qed.

Lemma length_runs h t : List.length (runs (h :: t)) = S (changes (h :: t)).
Proof.
  revert h. induction t as [|h' t IH]; intros h; [reflexivity|].
  rewrite runs_cons_cons, changes_cons_cons. specialize (IH h').
  destruct (runs (h' :: t)) as [|r rs]; [discriminate|].
  destruct (String.eqb (hit_name h) (hit_name h'));
    cbn [List.length] in *; lia.
Qed.

(** The hits are those of the first data lines, in order; a failure is the
    exception of the data line that follows them. *)
Lemma hits_until_error_lines lines :
  map named_hit (firstn (List.length (fst (hits_until_error lines))) lines)
  = map Ok (fst (hits_until_error lines))
  /\ match snd (hits_until_error lines) with
     | None => List.length (fst (hits_until_error lines)) = List.length lines
     | Some e =>
         exists line,
           nth_error lines (List.length (fst (hits_until_error lines))) = Some line
           /\ named_hit line = Raise e
     end.
Proof.
  induction lines as [|line rest [IH1 IH2]]; [split; reflexivity|].
  cbn [hits_until_error]. destruct (named_hit line) as [h|e] eqn:E.
  - destruct (hits_until_error rest) as [hs e'].
    cbn [fst snd List.length firstn map nth_error] in *. split.
    + rewrite E, IH1. reflexivity.
    + destruct e' as [e'|]; [exact IH2 | now rewrite IH2].
  - cbn [fst snd List.length firstn map nth_error]. split; [reflexivity|].
    exists line. split; [reflexivity | exact E].
Qed.

Lemma comment_or_blank_no_data fh :
  Forall (fun line => is_blank line = true \/ is_comment (Py.strip line) = true) fh ->
  data_lines fh = [].
Proof.
  unfold data_lines. induction fh as [|line rest IH]; intros H; [reflexivity|].
  inversion H as [|? ? Hl Hr]; subst. specialize (IH Hr).
  cbn [_line_generator].
  destruct (Py.isspace (Py.strip line) || negb (Py.nonempty (Py.strip line))) eqn:S;
    [exact IH|].
  cbn [filter]. destruct Hl as [B|C].
  - unfold is_blank in B. rewrite B in S. rewrite orb_true_r in S. discriminate.
  - rewrite C. exact IH.
Qed.

(** An identifier that comes back after another one starts a third group. *)
Lemma reappearing_identifier_starts_new_group :
  map (map snd)
    (fst (_parse_records [line_23 ++ nl; line_other_sequence ++ nl; line_24 ++ nl]))
  = [[[(4977823, 4980727)]]; [[(300, 500)]]; [[(5018849, 5021753)]]]
  /\ map hit_name (hits [line_23 ++ nl; line_other_sequence ++ nl; line_24 ++ nl])
     = ["gi|15829254|ref|NC_002695.1|"; "gi|00000001|ref|NC_000001.1|";
        "gi|15829254|ref|NC_002695.1|"].
Proof. split; vm_compute; reflexivity. Qed.

(** C7: when the loop exhausts the input the accumulator is yielded as the
    last group, after one group for each change of identifier, so once; a
    file of comment and blank lines alone yields one group, the empty one. *)
Theorem final_group_emitted_once (fh : list string) :
  (snd (_parse_records fh) = None ->
   exists earlier,
     fst (_parse_records fh)
     = (earlier ++ [group_of (last (runs (hits fh)) [])])%list
     /\ List.length earlier = changes (hits fh))
  /\ (Forall (fun line => is_blank line = true
                          \/ is_comment (Py.strip line) = true) fh ->
      _parse_records fh = ([[]], None)).
Proof.
  split.
  - rewrite parse_records_emitted. cbn [fst snd]. intros ->. unfold emitted.
    destruct (hits fh) as [|h t] eqn:H.
    + exists []. split; reflexivity.
    + pose proof (length_runs h t) as L.
      destruct (runs (h :: t)) as [|r rs]; [discriminate|].
      assert (r :: rs <> []) as N by discriminate.
      pose proof (app_removelast_last [] N) as E.
      set (l := r :: rs) in *.
      exists (map group_of (removelast l)). split.
      * rewrite E at 1. rewrite map_app. reflexivity.
      * rewrite length_map. apply (f_equal (@List.length _)) in E.
        rewrite length_app in E. cbn [List.length] in E. lia.
  - intros H. rewrite parse_records_emitted. unfold hits, failure.
    rewrite (comment_or_blank_no_data _ H). reflexivity.
Qed.

Lemma final_group_emitted_once_witness :
  (exists earlier,
     fst (_parse_records two_sequences)
     = (earlier ++ [group_of (last (runs (hits two_sequences)) [])])%list
     /\ List.length earlier = changes (hits two_sequences))
  /\ _parse_records comments_only = ([[]], None).
Proof.
  destruct (final_group_emitted_once two_sequences) as [H1 _].
  destruct (final_group_emitted_once comments_only) as [_ H2].
  split.
  - apply H1. vm_compute. reflexivity.
  - apply H2. unfold comments_only.
    constructor; [right; vm_compute; reflexivity|].
    constructor; [left; vm_compute; reflexivity|].
    constructor; [right; vm_compute; reflexivity|constructor].
Defined.

(** C7 as stated fails: a data line of three fields raises [IndexError],
    which is no format error, and the accumulator is not yielded. *)
Lemma no_format_error_no_final_group :
  _parse_records [line_three_fields ++ nl] = ([], Some IndexError)
  /\ is_format_error IndexError = false
  /\ ~ (exists earlier final,
          fst (_parse_records [line_three_fields ++ nl])
          = (earlier ++ [final])%list).
Proof.
  split; [vm_compute; reflexivity|]. split; [reflexivity|].
  intros (earlier & final & H). vm_compute in H.
  destruct earlier; discriminate.
Qed.

(** ** The sniffer *)

Lemma lstrip_spaces s :
  Py.lstrip s = EmptyString <-> Py.all_chars Py.isspace_char s = true.
Proof.
  induction s as [|c r IH]; cbn [Py.lstrip Py.all_chars]; [tauto|].
  destruct (Py.isspace_char c); cbn [andb]; [exact IH|].
  split; discriminate.
Qed.

Lemma lstrip_head s c r :
  Py.lstrip s = String c r -> Py.isspace_char c = false.
Proof.
  induction s as [|c' r' IH]; cbn [Py.lstrip]; [discriminate|].
  destruct (Py.isspace_char c') eqn:E; [exact IH|].
  intros [= -> ->]. exact E.
Qed.

Lemma rstrip_head c r :
  Py.isspace_char c = false -> Py.nonempty (Py.rstrip (String c r)) = true.
Proof.
  intros H. cbn [Py.rstrip]. rewrite H. destruct (Py.rstrip r); reflexivity.
Qed.

(** A line is blank when it is empty or made of whitespace. *)
Lemma is_blank_isspace line :
  is_blank line = Py.isspace line || negb (Py.nonempty line).
Proof.
  unfold is_blank, Py.strip, Py.isspace.
  destruct (Py.lstrip line) as [|c r] eqn:E.
  - apply lstrip_spaces in E. rewrite E.
    destruct line; reflexivity.
  - rewrite (rstrip_head c r (lstrip_head _ _ _ E)).
    destruct (Py.all_chars Py.isspace_char line) eqn:A.
    + apply lstrip_spaces in A. congruence.
    + destruct line; [discriminate|reflexivity].
Qed.

Lemma line_generator_skip_blanks fh :
  _line_generator fh true false = filter (fun line => negb (is_blank line)) fh.
Proof.
  induction fh as [|line rest IH]; [reflexivity|].
  cbn [_line_generator filter]. rewrite is_blank_isspace.
  destruct (Py.isspace line || negb (Py.nonempty line)); cbn [negb];
    rewrite IH; reflexivity.
Qed.

Lemma line_generator_strip fh : _line_generator fh false true = map Py.strip fh.
Proof.
  induction fh as [|line rest IH]; [reflexivity|].
  cbn [_line_generator map]. rewrite IH. reflexivity.
Qed.

Lemma first_of_filter fh :
  first_nonblank fh
  = match filter (fun line => negb (is_blank line)) fh with
    | [] => None
    | line :: _ => Some line
    end.
Proof.
  unfold first_nonblank. induction fh as [|line rest IH]; [reflexivity|].
  cbn [find filter]. destruct (negb (is_blank line)); [reflexivity|exact IH].
Qed.

Lemma too_many_blanks_from_count fh max_blanks : forall count,
  (count <= max_blanks)%nat ->
  too_many_blanks_from (map Py.strip fh) count max_blanks
  = (max_blanks <? count + leading_blanks fh)%nat.
Proof.
  induction fh as [|line rest IH]; intros count H;
    cbn [map too_many_blanks_from leading_blanks].
  - symmetry. apply Nat.ltb_ge. lia.
  - unfold is_blank. destruct (Py.nonempty (Py.strip line)); cbn [negb].
    + symmetry. apply Nat.ltb_ge. lia.
    + destruct (max_blanks <? S count)%nat eqn:E.
      * symmetry. apply Nat.ltb_lt. apply Nat.ltb_lt in E. lia.
      * apply Nat.ltb_ge in E. rewrite IH by lia. f_equal. lia.
Qed.

Lemma too_many_blanks_leading fh max_blanks :
  _too_many_blanks fh max_blanks = (max_blanks <? leading_blanks fh)%nat.
Proof.
  unfold _too_many_blanks. rewrite line_generator_strip.
  rewrite too_many_blanks_from_count by lia. reflexivity.
Qed.

(** The verdict of the sniffer in the words of the specification. *)
Lemma sniffer_verdict fh :
  _cmscan_sniffer fh =
  (negb (5 <? leading_blanks fh)%nat
   && match first_nonblank fh with
      | Some line => Py.startswith line "#target name"
      | None => false
      end, []).
Proof.
  unfold _cmscan_sniffer. rewrite too_many_blanks_leading.
  destruct (5 <? leading_blanks fh)%nat; [reflexivity|].
  rewrite line_generator_skip_blanks, first_of_filter.
  destruct (filter (fun line => negb (is_blank line)) fh) as [|line ?];
    [reflexivity|].
  destruct (Py.startswith line "#target name"); reflexivity.
Qed.

(** C9: the sniffer answers true, with the empty options, exactly when at
    most 5 blank lines lead the input and the first line that is not blank
    starts with [#target name]; it answers false on the empty input and on
    every input led by more than 5 blank lines. *)
Theorem sniffer_matches_header (fh : list string) :
  (_cmscan_sniffer fh = (true, [])
   <-> (leading_blanks fh <= 5)%nat
       /\ exists line, first_nonblank fh = Some line
                       /\ Py.startswith line "#target name" = true)
  /\ snd (_cmscan_sniffer fh) = []
  /\ _cmscan_sniffer [] = (false, [])
  /\ ((5 < leading_blanks fh)%nat -> _cmscan_sniffer fh = (false, [])).
Proof.
  rewrite sniffer_verdict. split; [|split; [reflexivity|split; [reflexivity|]]].
  - destruct (5 <? leading_blanks fh)%nat eqn:E; cbn [negb andb].
    + apply Nat.ltb_lt in E. split; [discriminate|]. intros [H _]. lia.
    + apply Nat.ltb_ge in E. destruct (first_nonblank fh) as [line|].
      * split.
        -- intros [= H]. split; [exact E|]. exists line. split; [reflexivity|exact H].
        -- intros [_ (l & [= <-] & H)]. rewrite H. reflexivity.
      * split; [discriminate|]. intros [_ (l & H & _)]. discriminate.
  - intros H. apply Nat.ltb_lt in H. rewrite H. reflexivity.
Qed.

Lemma sniffer_matches_header_witness :
  _cmscan_sniffer six_blanks_then_header = (false, [])
  /\ _cmscan_sniffer [nl; header ++ nl] = (true, []).
Proof.
  split.
  - apply (sniffer_matches_header six_blanks_then_header).
    vm_compute. repeat constructor.
  - apply (sniffer_matches_header [nl; header ++ nl]). split.
    + vm_compute. repeat constructor.
    + exists (header ++ nl). split; vm_compute; reflexivity.
Defined.

(** ** Counting the entries *)

Lemma length_dict_set {K V} (eqb : K -> K -> bool) d k (v : V) :
  (List.length (dict_set eqb d k v) <= S (List.length d))%nat.
Proof.
  induction d as [|[k' v'] d IH]; cbn [dict_set List.length]; [lia|].
  destruct (eqb k' k); cbn [List.length]; lia.
Qed.

Lemma length_fold_add_hit run : forall acc,
  (List.length (fold_left add_hit run acc) <= List.length acc + List.length run)%nat.
Proof.
  induction run as [|h run IH]; intros acc; cbn [fold_left List.length]; [lia|].
  specialize (IH (add_hit acc h)).
  pose proof (length_dict_set Feature_eqb acc (Feature (fst (fst h))) [snd (fst h)]).
  unfold add_hit in *. lia.
Qed.

Lemma count_entries_groups rs :
  (count_entries (map group_of rs) <= List.length (List.concat rs))%nat.
Proof.
  induction rs as [|r rs IH]; cbn [map count_entries fold_right List.concat];
    [lia|].
  rewrite length_app. pose proof (length_fold_add_hit r []).
  unfold group_of, count_entries in *. cbn [List.length] in *. lia.
Qed.

Lemma length_emitted hs e :
  (List.length (List.concat (emitted hs e)) <= List.length hs)%nat.
Proof.
  unfold emitted. pose proof (concat_runs hs) as C.
  destruct e as [e|].
  - destruct (runs hs) as [|r rs]; [cbn; lia|].
    assert (r :: rs <> []) as N by discriminate.
    pose proof (app_removelast_last [] N) as E.
    set (l := r :: rs) in *. rewrite <- C. rewrite E at 2.
    rewrite concat_app, length_app. lia.
  - destruct (runs hs) as [|r rs]; [cbn; lia|]. rewrite C. lia.
Qed.

(** The groups never hold more entries than there are data lines. *)
Lemma entries_at_most_data_lines fh :
  (count_entries (fst (_parse_records fh)) <= List.length (data_lines fh))%nat.
Proof.
  rewrite parse_records_emitted. cbn [fst].
  pose proof (count_entries_groups (emitted (hits fh) (failure fh))).
  pose proof (length_emitted (hits fh) (failure fh)).
  pose proof (hits_until_error_lines (data_lines fh)) as [F _].
  apply (f_equal (@List.length _)) in F. rewrite !length_map in F.
  fold (hits fh) in F. rewrite length_firstn in F. lia.
Qed.

(** ** Further properties of the checks of a line *)

Lemma parse_hit_raises line e :
  hit_interval (Py.split line) = Raise e -> parse_hit line = Raise e.
Proof.
  intros H. unfold parse_hit, parse_fields. rewrite H. reflexivity.
Qed.

Lemma reverse_message_mentions s e :
  mentions (reverse_message s e) "forward strand".
Proof.
  exists ("On the reverse strand (-), start position of a hit must always be larger than its end position. This is not true for the hit between"
          ++ " " ++ Py.fmt_i s ++ " " ++ "and" ++ " " ++ Py.fmt_i e ++ " "
          ++ ". It might be, that this hit is in fact on the "),
         ". Please check strand orientation and positions.".
  unfold reverse_message. rewrite !append_assoc. reflexivity.
Qed.

(** X1: a strand that is neither [+] nor [-], after a start and an end that
    are numbers, raises the format error that quotes the strand and names
    column 9. *)
Theorem unknown_strand_raises (line a b o : string) (s e : Z) :
  nth_error (Py.split line) 7 = Some a ->
  nth_error (Py.split line) 8 = Some b ->
  nth_error (Py.split line) 9 = Some o ->
  int a = Ok s -> int b = Ok e ->
  o <> "+" -> o <> "-" ->
  parse_hit line
  = Raise (CmscanFormatError
      ("Unknown strand character '" ++ o
       ++ "' in column 9. Valid characters are '+' for the forward strand and '-' for the reverse strand.")).
Proof.
  intros H7 H8 H9 Ha Hb Hp Hm. apply parse_hit_raises.
  rewrite (hit_interval_numbers _ _ _ _ _ _ H7 H8 H9 Ha Hb).
  apply String.eqb_neq in Hp, Hm. rewrite Hp, Hm. reflexivity.
Qed.

Lemma unknown_strand_raises_witness :
  parse_hit line_unknown_strand
  = Raise (CmscanFormatError
      ("Unknown strand character '" ++ "x"
       ++ "' in column 9. Valid characters are '+' for the forward strand and '-' for the reverse strand.")).
Proof.
  apply (unknown_strand_raises line_unknown_strand "300" "500" "x" 300 500);
    try reflexivity; discriminate.
Defined.

(** X2: on strand [-] a start below the end raises the format error of
    lines 260-269, which gives both bounds and says that the hit may be on
    the forward strand. *)
Theorem reverse_strand_ascending_raises (line a b : string) (s e : Z) :
  nth_error (Py.split line) 7 = Some a ->
  nth_error (Py.split line) 8 = Some b ->
  nth_error (Py.split line) 9 = Some "-" ->
  int a = Ok s -> int b = Ok e ->
  s < e ->
  parse_hit line = Raise (CmscanFormatError (reverse_message s e))
  /\ mentions (reverse_message s e) "forward strand"
  /\ mentions (reverse_message s e) (Py.fmt_i s ++ " and " ++ Py.fmt_i e).
Proof.
  intros H7 H8 H9 Ha Hb Hlt. split; [|split].
  - apply parse_hit_raises.
    rewrite (hit_interval_numbers _ _ _ _ _ _ H7 H8 H9 Ha Hb).
    cbn [String.eqb Ascii.eqb Bool.eqb].
    apply Z.ltb_lt in Hlt. rewrite Hlt. reflexivity.
  - apply reverse_message_mentions.
  - exists "On the reverse strand (-), start position of a hit must always be larger than its end position. This is not true for the hit between ",
           " . It might be, that this hit is in fact on the forward strand. Please check strand orientation and positions.".
    unfold reverse_message. rewrite !append_assoc. reflexivity.
Qed.

Lemma reverse_strand_ascending_raises_witness :
  parse_hit line_reverse_ascending
  = Raise (CmscanFormatError (reverse_message 300 500))
  /\ mentions (reverse_message 300 500) "forward strand"
  /\ mentions (reverse_message 300 500) (Py.fmt_i 300 ++ " and " ++ Py.fmt_i 500).
Proof.
  apply (reverse_strand_ascending_raises line_reverse_ascending "300" "500");
    try reflexivity.
Defined.

(** X3: a start that [isdigit] rejects raises the format error that names
    column 7 and quotes the field, whatever the rest of the line holds and
    however few fields follow. *)
Theorem bad_start_raises_first (line a : string) :
  nth_error (Py.split line) 7 = Some a ->
  Py.isdigit a = false ->
  parse_hit line
  = Raise (CmscanFormatError
      ("Column 7 must be an integer value for the start position of the hit. Here, it is '"
       ++ a ++ "'.")).
Proof.
  intros H7 Ha. apply parse_hit_raises. rewrite hit_interval_columns.
  rewrite (getitem_nth _ _ _ H7). cbn [bind]. rewrite Ha. reflexivity.
Qed.

Lemma bad_start_raises_first_witness :
  parse_hit line_short_bad_start
  = Raise (CmscanFormatError
      ("Column 7 must be an integer value for the start position of the hit. Here, it is '"
       ++ "abc" ++ "'.")).
Proof.
  apply (bad_start_raises_first line_short_bad_start "abc"); reflexivity.
Defined.

(** X4: a line gives a hit exactly when it has at least 18 fields, its start
    and end are numbers, and its strand is [+] with start <= end or [-] with
    end <= start; no other column is checked, and the attributes are the
    fields as they stand. *)
Theorem parse_hit_accepts (line : string) (attributes : attributes_t) (lo hi : Z) :
  parse_hit line = Ok (attributes, (lo, hi)) <->
  (18 <= List.length (Py.split line))%nat
  /\ attributes = cmscan_attributes (Py.split line)
  /\ exists a b o s e,
       nth_error (Py.split line) 7 = Some a
       /\ nth_error (Py.split line) 8 = Some b
       /\ nth_error (Py.split line) 9 = Some o
       /\ int a = Ok s /\ int b = Ok e
       /\ ((o = "+" /\ s <= e /\ lo = s /\ hi = e)
           \/ (o = "-" /\ e <= s /\ lo = e /\ hi = s)).
Proof.
  split.
  - intros H. pose proof (parse_hit_ok_long _ _ H) as L.
    apply parse_hit_ok in H as [-> H]. split; [exact L|]. split; [reflexivity|].
    rewrite hit_interval_columns in H. unfold getitem in H.
    destruct (nth_error (Py.split line) 7) as [a|]; [|discriminate].
    cbn [bind] in H. destruct (Py.isdigit a); [|discriminate].
    destruct (int a) as [s|] eqn:Ha; [|discriminate]. cbn [bind] in H.
    destruct (nth_error (Py.split line) 8) as [b|]; [|discriminate].
    cbn [bind] in H. destruct (Py.isdigit b); [|discriminate].
    destruct (int b) as [e|] eqn:Hb; [|discriminate]. cbn [bind] in H.
    destruct (nth_error (Py.split line) 9) as [o|]; [|discriminate].
    cbn [bind] in H. exists a, b, o, s, e.
    repeat (split; [first [reflexivity | assumption]|]).
    destruct (String.eqb o "+") eqn:Ep.
    + apply String.eqb_eq in Ep. left.
      destruct (s >? e) eqn:G; [discriminate|]. injection H as <- <-.
      pose proof (Zgt_cases s e) as C. rewrite G in C. auto.
    + destruct (String.eqb o "-") eqn:Em; [|discriminate].
      apply String.eqb_eq in Em. right.
      destruct (s <? e) eqn:G; [discriminate|]. injection H as <- <-.
      apply Z.ltb_ge in G. auto.
  - intros (L & -> & a & b & o & s & e & H7 & H8 & H9 & Ha & Hb & Hc).
    rewrite (parse_hit_numbers _ _ _ _ _ _ L H7 H8 H9 Ha Hb).
    destruct Hc as [(-> & Hle & -> & ->) | (-> & Hle & -> & ->)];
      cbn [String.eqb Ascii.eqb Bool.eqb].
    + destruct (s >? e) eqn:G; [|reflexivity].
      pose proof (Zgt_cases s e) as C. rewrite G in C. lia.
    + destruct (s <? e) eqn:G; [|reflexivity]. apply Z.ltb_lt in G. lia.
Qed.

Lemma parse_hit_accepts_witness :
  parse_hit line_reverse = Ok (cmscan_attributes (Py.split line_reverse), (300, 500)).
Proof.
  apply (proj2 (parse_hit_accepts line_reverse _ _ _)).
  split; [vm_compute; repeat constructor|].
  split; [reflexivity|].
  exists "500", "300", "-", 500, 300. repeat (split; [reflexivity|]).
  right. repeat split. lia.
Defined.

(** ** Further properties of the groups *)

Lemma named_hit_ok line h :
  named_hit line = Ok h ->
  parse_hit line = Ok (fst h)
  /\ dict_get String.eqb (hit_key h) "SEQUENCE_NAME" = Ok (hit_name h).
Proof.
  unfold named_hit. destruct (parse_hit line) as [hit|]; [|discriminate].
  cbn [bind]. destruct (dict_get String.eqb (fst hit) "SEQUENCE_NAME") as [name|] eqn:E;
    [|discriminate].
  cbn [bind]. intros [= <-]. split; [reflexivity | exact E].
Qed.

Lemma hits_from_lines lines :
  Forall (fun h => exists line, named_hit line = Ok h)
         (fst (hits_until_error lines)).
Proof.
  induction lines as [|line rest IH]; [constructor|].
  cbn [hits_until_error]. destruct (named_hit line) as [h|e] eqn:E; [|constructor].
  destruct (hits_until_error rest) as [hs e']. cbn [fst] in *.
  constructor; [exists line; exact E | exact IH].
Qed.

Lemma in_removelast {A} (x : A) l : In x (removelast l) -> In x l.
Proof.
  induction l as [|y [|z l] IH]; cbn [removelast]; [tauto|intros []|].
  intros [->|H]; [left; reflexivity | right; exact (IH H)].
Qed.

Lemma separated_in rs r :
  separated rs -> In r rs ->
  exists h r', r = h :: r' /\ uniform (hit_name h) r.
Proof.
  induction rs as [|r0 rs IH]; [intros _ []|].
  intros [(h & r' & E & U & _) S] [<-|H]; [exists h, r'; auto | exact (IH S H)].
Qed.

(** A run that is yielded is empty or one of the runs of the hits. *)
Lemma in_emitted hs e r :
  In r (emitted hs e) -> r = [] \/ In r (runs hs).
Proof.
  unfold emitted. destruct e as [e|].
  - intros H. right. exact (in_removelast _ _ H).
  - destruct (runs hs) as [|r0 rs]; [intros [<-|[]]; left; reflexivity|].
    intros H. right. exact H.
Qed.

Lemma in_runs_hits hs r h : In r (runs hs) -> In h r -> In h hs.
Proof.
  intros Hr Hh. rewrite <- (concat_runs hs). apply in_concat. exists r. auto.
Qed.

Section Entries.

Variable Pk : attributes_t -> Prop.
Variable Pv : list interval -> Prop.

Let P (entry : attributes_t * list interval) : Prop :=
  Pk (fst entry) /\ Pv (snd entry).

Lemma dict_set_entries d k v :
  Forall P d -> Pk k -> Pv v -> Forall P (dict_set Feature_eqb d k v).
Proof.
  intros Hd Hk Hv. induction d as [|[k' v'] d IH]; cbn [dict_set].
  - constructor; [split; assumption | constructor].
  - inversion Hd as [|? ? Hkv Hd']; subst. destruct Hkv as [Hk' Hv'].
    destruct (Feature_eqb k' k).
    + constructor; [split; [exact Hk' | exact Hv] | exact Hd'].
    + constructor; [split; [exact Hk' | exact Hv'] | exact (IH Hd')].
Qed.

Lemma fold_add_hit_entries run : forall acc,
  Forall P acc ->
  Forall (fun h => Pk (hit_key h) /\ Pv [hit_interval_of h]) run ->
  Forall P (fold_left add_hit run acc).
Proof.
  induction run as [|h run IH]; intros acc Ha Hr; [exact Ha|].
  inversion Hr as [|? ? [Hk Hv] Hr']; subst. cbn [fold_left].
  apply IH; [|exact Hr']. apply dict_set_entries; assumption.
Qed.

Lemma group_of_entries run :
  Forall (fun h => Pk (hit_key h) /\ Pv [hit_interval_of h]) run ->
  Forall P (group_of run).
Proof. apply fold_add_hit_entries. constructor. Qed.

End Entries.

Lemma hit_entry_ok line h :
  named_hit line = Ok h ->
  map fst (hit_key h) = attribute_keys
  /\ exists lo hi, [hit_interval_of h] = [(lo, hi)] /\ 0 <= lo <= hi.
Proof.
  intros H. apply named_hit_ok in H as [H _].
  destruct h as [[attributes [lo hi]] name]. cbn [fst] in H.
  split; [exact (parse_hit_keys _ _ _ H)|].
  apply parse_hit_ok in H as [_ H].
  exists lo, hi. split; [reflexivity | exact (hit_interval_nonnegative _ _ _ H)].
Qed.

Lemma named_hit_column line h :
  named_hit line = Ok h ->
  parse_hit line = Ok (fst h)
  /\ dict_get String.eqb (hit_key h) "SEQUENCE_NAME" = Ok (hit_name h)
  /\ nth_error (Py.split line) 2 = Some (hit_name h).
Proof.
  intros H. apply named_hit_ok in H as [P N]. split; [exact P|].
  split; [exact N|].
  destruct h as [[attributes iv] name]. cbn [fst] in P.
  pose proof (parse_hit_ok_long _ _ P) as L.
  apply parse_hit_ok in P as [-> _]. unfold hit_key, hit_name in *.
  cbn [fst snd] in *.
  change (dict_get String.eqb (cmscan_attributes (Py.split line)) "SEQUENCE_NAME")
    with (@Ok string (nth 2 (Py.split line) EmptyString)) in N.
  injection N as <-. apply nth_error_nth'. lia.
Qed.

Lemma named_hits_of_lines lines hs :
  map named_hit lines = map Ok hs ->
  Forall2 (fun line h =>
             parse_hit line = Ok (fst h)
             /\ dict_get String.eqb (hit_key h) "SEQUENCE_NAME" = Ok (hit_name h)
             /\ nth_error (Py.split line) 2 = Some (hit_name h)) lines hs.
Proof.
  revert hs. induction lines as [|line lines IH]; intros [|h hs] H;
    try discriminate; [constructor|].
  cbn [map] in H. injection H as H1 H2.
  constructor; [exact (named_hit_column _ _ H1) | exact (IH _ H2)].
Qed.

(** C6: the groups yielded are, in the order of the file, the groups of the
    maximal runs of consecutive data lines that share a sequence
    identifier (without the run being accumulated when a line raises): the
    hits are those of the data lines in order, the identifier of a hit is
    its attribute [SEQUENCE_NAME], the field of column 2 of its line, the
    runs partition the hits in order, each run carries one identifier and
    two consecutive runs differ in identifier, whether or not the
    identifier was seen before. *)
Theorem groups_are_contiguous_runs (fh : list string) :
  _parse_records fh = (map group_of (emitted (hits fh) (failure fh)), failure fh)
  /\ map named_hit (firstn (List.length (hits fh)) (data_lines fh))
     = map Ok (hits fh)
  /\ Forall2 (fun line h =>
                parse_hit line = Ok (fst h)
                /\ dict_get String.eqb (hit_key h) "SEQUENCE_NAME"
                   = Ok (hit_name h)
                /\ nth_error (Py.split line) 2 = Some (hit_name h))
             (firstn (List.length (hits fh)) (data_lines fh)) (hits fh)
  /\ match failure fh with
     | None => List.length (hits fh) = List.length (data_lines fh)
     | Some e =>
         exists line,
           nth_error (data_lines fh) (List.length (hits fh)) = Some line
           /\ named_hit line = Raise e
     end
  /\ List.concat (runs (hits fh)) = hits fh
  /\ separated (runs (hits fh)).
Proof.
  split; [apply parse_records_emitted|].
  split; [apply hits_until_error_lines|].
  split; [apply named_hits_of_lines; apply hits_until_error_lines|].
  split; [apply (hits_until_error_lines (data_lines fh))|].
  split; [apply concat_runs | apply separated_runs].
Qed.

(** X5: every entry of every group that the record parser yields, also
    before a line that raises, has the 16 attributes as key (the start and
    the end of the hit are not among them) and one interval as value, which
    is ascending and has no negative bound. *)
Theorem every_entry_well_formed (fh : list string) :
  Forall (Forall entry_ok) (fst (_parse_records fh)).
Proof.
  rewrite parse_records_emitted. cbn [fst].
  apply Forall_forall. intros g Hg. apply in_map_iff in Hg as (r & <- & Hr).
  apply (group_of_entries (fun k => map fst k = attribute_keys)
           (fun v => exists lo hi, v = [(lo, hi)] /\ 0 <= lo <= hi)).
  apply Forall_forall. intros h Hh.
  destruct (in_emitted _ _ _ Hr) as [->|Hr']; [destruct Hh|].
  pose proof (in_runs_hits _ _ _ Hr' Hh) as Hin.
  pose proof (hits_from_lines (data_lines fh)) as F.
  rewrite Forall_forall in F. destruct (F h Hin) as (line & Hl).
  exact (hit_entry_ok _ _ Hl).
Qed.

(** X6: all the entries of one yielded group carry the same
    [SEQUENCE_NAME]: a group never mixes two sequences. *)
Theorem group_has_one_sequence (fh : list string) :
  Forall (fun g =>
            exists name,
              Forall (fun entry =>
                        dict_get String.eqb (fst entry) "SEQUENCE_NAME" = Ok name) g)
         (fst (_parse_records fh)).
Proof.
  rewrite parse_records_emitted. cbn [fst].
  apply Forall_forall. intros g Hg. apply in_map_iff in Hg as (r & <- & Hr).
  destruct (in_emitted _ _ _ Hr) as [->|Hr']; [exists EmptyString; constructor|].
  destruct (separated_in _ _ (separated_runs (hits fh)) Hr') as (h0 & r' & E & U).
  exists (hit_name h0).
  assert (Forall (fun entry =>
            dict_get String.eqb (fst entry) "SEQUENCE_NAME" = Ok (hit_name h0)
            /\ True) (group_of r)) as G.
  { apply (group_of_entries
             (fun k => dict_get String.eqb k "SEQUENCE_NAME" = Ok (hit_name h0))
             (fun _ => True)).
    apply Forall_forall. intros h Hh. split; [|exact I].
    pose proof (in_runs_hits _ _ _ Hr' Hh) as Hin.
    pose proof (hits_from_lines (data_lines fh)) as F.
    rewrite Forall_forall in F. destruct (F h Hin) as (line & Hl).
    apply named_hit_ok in Hl as [_ Hn]. rewrite Hn.
    unfold uniform in U. rewrite Forall_forall in U. rewrite (U h Hh). reflexivity. }
  eapply Forall_impl; [|exact G]. intros entry [H _]. exact H.
Qed.

Lemma dict_set_nonempty {K V} (eqb : K -> K -> bool) d k (v : V) :
  dict_set eqb d k v <> [].
Proof.
  destruct d as [|[k' v'] d]; cbn [dict_set]; [discriminate|].
  destruct (eqb k' k); discriminate.
Qed.

Lemma fold_add_hit_nonempty run : forall acc,
  acc <> [] -> fold_left add_hit run acc <> [].
Proof.
  induction run as [|h run IH]; intros acc H; [exact H|].
  cbn [fold_left]. apply IH. apply dict_set_nonempty.
Qed.

(** X7: a file without any data line yields exactly one group, the empty
    one; a file with a data line never yields an empty group, whatever the
    identifiers are (the sentinel [False] of the cursor is no identifier);
    and a file that parses yields at least one group. *)
Theorem empty_group_only_without_data (fh : list string) :
  (data_lines fh = [] -> _parse_records fh = ([[]], None))
  /\ (data_lines fh <> [] ->
      Forall (fun g => g <> []) (fst (_parse_records fh)))
  /\ (snd (_parse_records fh) = None -> fst (_parse_records fh) <> []).
Proof.
  split; [|split].
  - intros H. rewrite parse_records_emitted. unfold hits, failure.
    rewrite H. reflexivity.
  - intros D. rewrite parse_records_emitted. cbn [fst].
    pose proof (hits_until_error_lines (data_lines fh)) as [_ L].
    fold (hits fh) (failure fh) in L.
    assert (forall r, In r (runs (hits fh)) -> group_of r <> []) as N.
    { intros r Hr.
      destruct (separated_in _ _ (separated_runs (hits fh)) Hr) as (h & r' & -> & _).
      unfold group_of. cbn [fold_left]. apply fold_add_hit_nonempty.
      apply dict_set_nonempty. }
    apply Forall_forall. intros g Hg. apply in_map_iff in Hg as (r & <- & Hr).
    unfold emitted in Hr. destruct (failure fh) as [e|].
    + apply N. exact (in_removelast _ _ Hr).
    + destruct (runs (hits fh)) as [|r0 rs] eqn:R; [|apply N; exact Hr].
      exfalso. apply D. pose proof (concat_runs (hits fh)) as C. rewrite R in C.
      cbn [List.concat] in C. rewrite <- C in L. cbn [List.length] in L.
      destruct (data_lines fh); [reflexivity | discriminate].
  - rewrite parse_records_emitted. cbn [fst snd]. intros ->. unfold emitted.
    destruct (runs (hits fh)); discriminate.
Qed.

Lemma empty_group_only_without_data_witness :
  _parse_records comments_only = ([[]], None)
  /\ Forall (fun g => g <> []) (fst (_parse_records two_sequences))
  /\ fst (_parse_records two_sequences) <> [].
Proof.
  destruct (empty_group_only_without_data comments_only) as [H1 _].
  destruct (empty_group_only_without_data two_sequences) as (_ & H2 & H3).
  split; [apply H1; vm_compute; reflexivity|].
  split; [apply H2; vm_compute; discriminate | apply H3; vm_compute; reflexivity].
Defined.

(** ** Lines that are skipped and lines that raise *)

Lemma line_generator_app a b skip_blanks strip :
  _line_generator (a ++ b) skip_blanks strip
  = (_line_generator a skip_blanks strip ++ _line_generator b skip_blanks strip)%list.
Proof.
  induction a as [|line a IH]; [reflexivity|].
  cbn [app _line_generator]. rewrite IH.
  destruct (if skip_blanks
            then Py.isspace (if strip then Py.strip line else line)
                 || negb (Py.nonempty (if strip then Py.strip line else line))
            else false); reflexivity.
Qed.

Lemma data_lines_app a b : data_lines (a ++ b) = (data_lines a ++ data_lines b)%list.
Proof.
  unfold data_lines. rewrite line_generator_app, filter_app. reflexivity.
Qed.

Lemma rstrip_keeps_head c r :
  Py.isspace_char c = false -> exists r', Py.rstrip (String c r) = String c r'.
Proof.
  intros H. cbn [Py.rstrip]. rewrite H. destruct (Py.rstrip r); eauto.
Qed.

Lemma strip_not_space s : Py.isspace (Py.strip s) = false.
Proof.
  unfold Py.strip. destruct (Py.lstrip s) as [|c r] eqn:E; [reflexivity|].
  pose proof (lstrip_head _ _ _ E) as Hc.
  destruct (rstrip_keeps_head c r Hc) as (r' & ->).
  unfold Py.isspace. cbn [Py.nonempty Py.all_chars]. rewrite Hc. reflexivity.
Qed.

Lemma data_lines_skipped line : skipped line -> data_lines [line] = [].
Proof.
  intros H. apply comment_or_blank_no_data. constructor; [exact H | constructor].
Qed.

Lemma data_lines_kept line :
  is_blank line = false -> is_comment (Py.strip line) = false ->
  data_lines [line] = [Py.strip line].
Proof.
  intros B C. unfold data_lines. cbn [_line_generator].
  rewrite strip_not_space. unfold is_blank in B. apply negb_false_iff in B.
  rewrite B. cbn [orb negb filter]. rewrite C. reflexivity.
Qed.

Lemma parse_records_data_lines fh fh' :
  data_lines fh = data_lines fh' -> _parse_records fh = _parse_records fh'.
Proof.
  intros H. rewrite !parse_records_emitted. unfold hits, failure. rewrite H.
  reflexivity.
Qed.

(** X8: a blank line or a comment, with or without blanks before the [#],
    can be put anywhere in a file without any effect on what the record
    parser yields. *)
Theorem skipped_lines_are_transparent (before after : list string) (line : string) :
  skipped line ->
  _parse_records (before ++ line :: after) = _parse_records (before ++ after).
Proof.
  intros H. apply parse_records_data_lines.
  change (line :: after) with ([line] ++ after)%list.
  rewrite !data_lines_app, (data_lines_skipped _ H). reflexivity.
Qed.

Lemma skipped_lines_are_transparent_witness :
  _parse_records ([line_23 ++ nl] ++ ("   # a comment" ++ nl) :: [line_24 ++ nl])
  = _parse_records ([line_23 ++ nl] ++ [line_24 ++ nl]).
Proof.
  apply (skipped_lines_are_transparent [line_23 ++ nl] [line_24 ++ nl]).
  right. vm_compute. reflexivity.
Defined.

Lemma hits_until_error_app_raise a l b hs e :
  hits_until_error a = (hs, None) -> named_hit l = Raise e ->
  hits_until_error (a ++ l :: b) = (hs, Some e).
Proof.
  revert hs. induction a as [|x a IH]; intros hs Ha Hl.
  - cbn [app hits_until_error] in *. rewrite Hl. congruence.
  - cbn [app hits_until_error] in *.
    destruct (named_hit x) as [h|]; [|discriminate].
    destruct (hits_until_error a) as [hs' e'].
    injection Ha as <- ->. rewrite (IH hs' eq_refl Hl). reflexivity.
Qed.

Lemma map_removelast {A B} (f : A -> B) l :
  removelast (map f l) = map f (removelast l).
Proof.
  induction l as [|x [|y l] IH]; [reflexivity|reflexivity|].
  cbn [map removelast] in *. rewrite IH. reflexivity.
Qed.

(** X9: when a data line raises after lines that parse, the groups
    completed before it are yielded, the group being accumulated is lost,
    the exception of the line ends the generator, and the lines after it
    are not read. *)
Theorem failure_drops_current_group (before after : list string) (bad : string)
    (e : exception) :
  is_blank bad = false ->
  is_comment (Py.strip bad) = false ->
  parse_hit (Py.strip bad) = Raise e ->
  snd (_parse_records before) = None ->
  _parse_records (before ++ bad :: after)
  = (removelast (fst (_parse_records before)), Some e).
Proof.
  intros B C R N.
  assert (named_hit (Py.strip bad) = Raise e) as R'
    by (unfold named_hit; rewrite R; reflexivity).
  rewrite parse_records_emitted in N. cbn [snd] in N.
  rewrite (parse_records_emitted before), N. cbn [fst].
  rewrite (parse_records_emitted (before ++ bad :: after)).
  unfold hits, failure in *.
  change (bad :: after) with ([bad] ++ after)%list.
  rewrite !data_lines_app, (data_lines_kept _ B C). cbn [app].
  destruct (hits_until_error (data_lines before)) as [hs e0] eqn:H.
  cbn [snd] in N. subst e0.
  rewrite (hits_until_error_app_raise _ _ _ _ _ H R'). cbn [fst snd].
  unfold emitted. destruct (runs hs) as [|r rs]; [reflexivity|].
  rewrite map_removelast. reflexivity.
Qed.

Lemma failure_drops_current_group_witness :
  _parse_records ([line_23 ++ nl; line_other_sequence ++ nl]
                  ++ (line_bad_end ++ nl) :: [line_24 ++ nl])
  = (removelast (fst (_parse_records [line_23 ++ nl; line_other_sequence ++ nl])),
     Some TypeError).
Proof.
  apply (failure_drops_current_group
           [line_23 ++ nl; line_other_sequence ++ nl] [line_24 ++ nl]);
    vm_compute; reflexivity.
Defined.

(** ** The entries of a group *)

Lemma Feature_eqb_refl k : Feature_eqb k k = true.
Proof. apply Feature_eqb_eq. reflexivity. Qed.

Lemma Feature_eqb_neq k k' : k <> k' -> Feature_eqb k k' = false.
Proof.
  intros H. destruct (Feature_eqb k k') eqn:E; [|reflexivity].
  apply Feature_eqb_eq in E. contradiction.
Qed.

Lemma dict_set_fresh (d : annotations_t) k v :
  ~ In k (map fst d) -> dict_set Feature_eqb d k v = (d ++ [(k, v)])%list.
Proof.
  induction d as [|[k' v'] d IH]; intros H; [reflexivity|].
  cbn [map fst In] in H. cbn [dict_set app].
  rewrite Feature_eqb_neq by tauto. rewrite IH by tauto. reflexivity.
Qed.

Lemma fold_add_hit_distinct run : forall acc,
  NoDup (map fst acc ++ map hit_key run) ->
  map fst (fold_left add_hit run acc) = (map fst acc ++ map hit_key run)%list.
Proof.
  induction run as [|h run IH]; intros acc H; cbn [fold_left map].
  - rewrite app_nil_r. reflexivity.
  - assert (~ In (hit_key h) (map fst acc)) as F.
    { apply NoDup_remove_2 in H. intros I. apply H. apply in_or_app. left. exact I. }
    unfold add_hit at 2. unfold Feature. fold (hit_key h).
    rewrite (dict_set_fresh _ _ _ F).
    rewrite IH; rewrite map_app; cbn [map fst app]; rewrite <- app_assoc;
      [reflexivity | exact H].
Qed.

Lemma length_group_of_distinct run :
  keys_distinct run -> List.length (group_of run) = List.length run.
Proof.
  intros H. pose proof (fold_add_hit_distinct run [] H) as E.
  apply (f_equal (@List.length _)) in E. cbn [map app] in E.
  rewrite !length_map in E. exact E.
Qed.

Lemma count_entries_distinct rs :
  Forall keys_distinct rs ->
  count_entries (map group_of rs) = List.length (List.concat rs).
Proof.
  induction rs as [|r rs IH]; intros H; [reflexivity|].
  inversion H as [|? ? Hr Hrs]; subst.
  cbn [map List.concat]. rewrite length_app, <- (IH Hrs).
  rewrite <- (length_group_of_distinct r Hr). reflexivity.
Qed.

(** X10: the groups never hold more entries than the file has data lines;
    when the whole file parses and no two hits of one run have equal
    attributes, they hold exactly one entry for each data line. *)
Theorem entries_count (fh : list string) :
  (count_entries (fst (_parse_records fh)) <= List.length (data_lines fh))%nat
  /\ (snd (_parse_records fh) = None ->
      Forall keys_distinct (runs (hits fh)) ->
      count_entries (fst (_parse_records fh)) = List.length (data_lines fh)).
Proof.
  split; [apply entries_at_most_data_lines|].
  rewrite parse_records_emitted. cbn [fst snd]. intros N D.
  pose proof (hits_until_error_lines (data_lines fh)) as [_ L].
  fold (hits fh) (failure fh) in L. rewrite N in *. unfold emitted.
  pose proof (concat_runs (hits fh)) as C.
  destruct (runs (hits fh)) as [|r rs].
  - cbn [List.concat] in C. rewrite <- L, <- C. reflexivity.
  - rewrite (count_entries_distinct _ D), C. exact L.
Qed.

Lemma entries_count_witness :
  (count_entries (fst (_parse_records two_sequences))
   <= List.length (data_lines two_sequences))%nat
  /\ count_entries (fst (_parse_records two_sequences))
     = List.length (data_lines two_sequences).
Proof.
  destruct (entries_count two_sequences) as [H1 H2]. split; [exact H1|].
  apply H2; [vm_compute; reflexivity|].
  vm_compute. repeat constructor; cbn; intuition discriminate.
Defined.

Lemma dict_find_set_same (d : annotations_t) k v :
  dict_find Feature_eqb (dict_set Feature_eqb d k v) k = Some v.
Proof.
  induction d as [|[k' v'] d IH]; cbn [dict_set dict_find].
  - rewrite Feature_eqb_refl. reflexivity.
  - destruct (Feature_eqb k' k) eqn:E; cbn [dict_find]; rewrite E;
      [reflexivity | exact IH].
Qed.

Lemma dict_find_set_other (d : annotations_t) k k' v :
  k' <> k ->
  dict_find Feature_eqb (dict_set Feature_eqb d k' v) k
  = dict_find Feature_eqb d k.
Proof.
  intros H. induction d as [|[k0 v0] d IH]; cbn [dict_set dict_find].
  - rewrite (Feature_eqb_neq _ _ H). reflexivity.
  - destruct (Feature_eqb k0 k') eqn:E; cbn [dict_find].
    + apply Feature_eqb_eq in E. subst k0.
      rewrite (Feature_eqb_neq _ _ H). reflexivity.
    + rewrite IH. reflexivity.
Qed.

Lemma fold_add_hit_keeps run k v : forall acc,
  dict_find Feature_eqb acc k = Some v ->
  Forall (fun h' => hit_key h' <> k) run ->
  dict_find Feature_eqb (fold_left add_hit run acc) k = Some v.
Proof.
  induction run as [|h run IH]; intros acc H F; [exact H|].
  inversion F as [|? ? Hh Hr]; subst. cbn [fold_left]. apply IH; [|exact Hr].
  unfold add_hit, Feature. fold (hit_key h).
  rewrite (dict_find_set_other _ _ _ _ Hh). exact H.
Qed.

(** X11: in a yielded group the interval found under the attributes of a hit
    is the interval of the last hit of the run that has these attributes;
    the intervals of the earlier hits with the same attributes are gone. *)
Theorem last_hit_with_attributes_wins (fh : list string) (r1 r2 : list hit_t)
    (h : hit_t) :
  In (r1 ++ h :: r2)%list (emitted (hits fh) (failure fh)) ->
  Forall (fun h' => hit_key h' <> hit_key h) r2 ->
  In (group_of (r1 ++ h :: r2)) (fst (_parse_records fh))
  /\ dict_find Feature_eqb (group_of (r1 ++ h :: r2)) (hit_key h)
     = Some [hit_interval_of h].
Proof.
  intros Hin F. split.
  - rewrite parse_records_emitted. cbn [fst]. apply in_map. exact Hin.
  - unfold group_of. rewrite fold_left_app. cbn [fold_left].
    apply fold_add_hit_keeps; [|exact F].
    unfold add_hit at 1. unfold Feature. apply dict_find_set_same.
Qed.

Lemma last_hit_with_attributes_wins_witness :
  In (group_of ([hit_23] ++ hit_24 :: []))
     (fst (_parse_records [line_23 ++ nl; line_24 ++ nl]))
  /\ dict_find Feature_eqb (group_of ([hit_23] ++ hit_24 :: [])) (hit_key hit_24)
     = Some [hit_interval_of hit_24].
Proof.
  apply (last_hit_with_attributes_wins [line_23 ++ nl; line_24 ++ nl]
           [hit_23] [] hit_24).
  - vm_compute. left. reflexivity.
  - constructor.
Defined.

(** ** Further properties of the sniffer *)

Lemma header_is_comment line :
  Py.startswith line "#target name" = true -> is_comment (Py.strip line) = true.
Proof.
  unfold Py.startswith. destruct line as [|c r]; [discriminate|].
  cbn [prefix]. destruct (ascii_dec "#" c) as [<-|]; [|discriminate].
  intros _. unfold Py.strip.
  change (Py.lstrip (String "#" r)) with (String "#" r).
  destruct (rstrip_keeps_head "#" r eq_refl) as (r' & ->).
  unfold is_comment, Py.startswith. cbn [prefix].
  destruct (ascii_dec "#" "#"); [destruct r'; reflexivity | congruence].
Qed.

Lemma first_nonblank_split fh line :
  first_nonblank fh = Some line ->
  exists blanks rest,
    fh = (blanks ++ line :: rest)%list
    /\ Forall (fun l => is_blank l = true) blanks
    /\ is_blank line = false.
Proof.
  unfold first_nonblank. induction fh as [|l fh IH]; [discriminate|].
  cbn [find]. destruct (is_blank l) eqn:B; cbn [negb].
  - intros H. destruct (IH H) as (blanks & rest & -> & F & N).
    exists (l :: blanks), rest. repeat split; [constructor; assumption | exact N].
  - intros [= <-]. exists [], fh. repeat split; [constructor | exact B].
Qed.

(** X12: in a file that the sniffer accepts, the record parser skips the
    blank lines and the header line the sniffer looked at: it yields what it
    yields on the lines after the header. *)
Theorem sniffed_header_is_skipped (fh : list string) :
  _cmscan_sniffer fh = (true, []) ->
  exists blanks line rest,
    fh = (blanks ++ line :: rest)%list
    /\ Forall (fun l => is_blank l = true) blanks
    /\ Py.startswith line "#target name" = true
    /\ _parse_records fh = _parse_records rest.
Proof.
  rewrite sniffer_verdict. intros [= H]. apply andb_prop in H as [_ H].
  destruct (first_nonblank fh) as [line|] eqn:E; [|discriminate].
  destruct (first_nonblank_split _ _ E) as (blanks & rest & -> & F & _).
  exists blanks, line, rest. repeat split; [exact F | exact H|].
  apply parse_records_data_lines.
  change (line :: rest) with ([line] ++ rest)%list. rewrite !data_lines_app.
  rewrite (data_lines_skipped line) by (right; exact (header_is_comment _ H)).
  rewrite (comment_or_blank_no_data blanks); [reflexivity|].
  eapply Forall_impl; [|exact F]. intros l Hl. left. exact Hl.
Qed.

Lemma sniffed_header_is_skipped_witness :
  exists blanks line rest,
    [nl; header ++ nl; line_23 ++ nl] = (blanks ++ line :: rest)%list
    /\ Forall (fun l => is_blank l = true) blanks
    /\ Py.startswith line "#target name" = true
    /\ _parse_records [nl; header ++ nl; line_23 ++ nl] = _parse_records rest.
Proof.
  apply (sniffed_header_is_skipped [nl; header ++ nl; line_23 ++ nl]).
  vm_compute. reflexivity.
Defined.

Lemma leading_blanks_app before line after :
  is_blank line = false ->
  leading_blanks (before ++ line :: after) = leading_blanks (before ++ [line])
  /\ first_nonblank (before ++ line :: after) = first_nonblank (before ++ [line]).
Proof.
  intros B. unfold first_nonblank.
  induction before as [|l before [IH1 IH2]]; cbn [app leading_blanks find].
  - rewrite B. split; reflexivity.
  - destruct (is_blank l); cbn [negb]; [|split; reflexivity].
    rewrite IH1, IH2. split; reflexivity.
Qed.

(** X13: the sniffer does not read past the first line that is not blank:
    its verdict is the same whatever follows that line. *)
Theorem sniffer_stops_at_first_line (before after : list string) (line : string) :
  is_blank line = false ->
  _cmscan_sniffer (before ++ line :: after) = _cmscan_sniffer (before ++ [line]).
Proof.
  intros B. rewrite !sniffer_verdict.
  destruct (leading_blanks_app before line after B) as [-> ->]. reflexivity.
Qed.

Lemma sniffer_stops_at_first_line_witness :
  _cmscan_sniffer ([nl] ++ (header ++ nl) :: [line_bad_end ++ nl])
  = _cmscan_sniffer ([nl] ++ [header ++ nl]).
Proof.
  apply (sniffer_stops_at_first_line [nl] [line_bad_end ++ nl]).
  vm_compute. reflexivity.
Defined.

(** ** The readers *)




(** X15: asked for the first record (the default) with keywords that do not
    collide with a parameter of [_construct], the reader of one record
    returns, on a file that parses, the container of the first run of hits,
    the empty container when the file has no data line; it raises only an
    exception of the record parser, and only when no group was completed
    before that exception.  With a keyword named [record] or [constructor]
    it raises [TypeError] on every file that parses. *)
Theorem first_record (fh : list string) (kwargs : kwargs_t) :
  (keyword_collides kwargs = false ->
   (snd (_parse_records fh) = None ->
    _cmscan_to_metadata fh 1 kwargs
    = Ok (container (group_of (hd [] (runs (hits fh))))))
   /\ (forall e, _cmscan_to_metadata fh 1 kwargs = Raise e ->
                 _parse_records fh = ([], Some e)))
  /\ (keyword_collides kwargs = true ->
      snd (_parse_records fh) = None ->
      _cmscan_to_metadata fh 1 kwargs = Raise TypeError).
Proof.
  unfold _cmscan_to_metadata, _get_nth_record, _construct.
  change (1 <? 1) with false. change (Z.to_nat (1 - 1)) with 0%nat.
  rewrite parse_records_emitted. cbn [fst snd nth_error]. split.
  - intros K. rewrite K. split.
    + intros ->. unfold emitted.
      destruct (runs (hits fh)) as [|r rs]; reflexivity.
    + intros e.
      destruct (map group_of (emitted (hits fh) (failure fh))) as [|g gs] eqn:G;
        [|discriminate].
      destruct (failure fh) as [e'|] eqn:F; cbn [bind].
      * intros [= <-]. reflexivity.
      * unfold emitted in G. destruct (runs (hits fh)); discriminate.
  - intros K ->. rewrite K. unfold emitted.
    destruct (runs (hits fh)) as [|r rs]; reflexivity.
Qed.

Lemma first_record_witness :
  _cmscan_to_metadata two_sequences 1 [("program", "CMSEARCH")]
  = Ok (container (group_of (hd [] (runs (hits two_sequences)))))
  /\ _parse_records [line_bad_end ++ nl] = ([], Some TypeError)
  /\ _cmscan_to_metadata two_sequences 1 [("constructor", "x")] = Raise TypeError.
Proof.
  destruct (first_record two_sequences [("program", "CMSEARCH")]) as [H1 _].
  destruct (H1 eq_refl) as [H1a _].
  destruct (first_record [line_bad_end ++ nl] []) as [H2 _].
  destruct (H2 eq_refl) as [_ H2b].
  destruct (first_record two_sequences [("constructor", "x")]) as [_ H3].
  split; [apply H1a | split; [apply H2b | apply H3]]; vm_compute; reflexivity.
Defined.

(** ** The interval that is emitted *)

Lemma split_from_spaces s : forall word,
  Py.all_chars Py.isspace_char s = true ->
  Py.split_from word s = if Py.nonempty word then [word] else [].
Proof.
  induction s as [|c r IH]; intros word H; [reflexivity|].
  cbn [Py.all_chars] in H. apply andb_prop in H as [Hc Hr].
  cbn [Py.split_from]. rewrite Hc, (IH EmptyString Hr). reflexivity.
Qed.

Lemma split_lstrip s :
  Py.split_from EmptyString (Py.lstrip s) = Py.split_from EmptyString s.
Proof.
  induction s as [|c r IH]; [reflexivity|].
  cbn [Py.lstrip]. destruct (Py.isspace_char c) eqn:E; [|reflexivity].
  rewrite IH. cbn [Py.split_from]. rewrite E. reflexivity.
Qed.

Lemma rstrip_empty s :
  Py.rstrip s = EmptyString -> Py.all_chars Py.isspace_char s = true.
Proof.
  induction s as [|c r IH]; [reflexivity|].
  cbn [Py.rstrip Py.all_chars]. destruct (Py.rstrip r); [|discriminate].
  destruct (Py.isspace_char c); [|discriminate].
  intros _. apply IH. reflexivity.
Qed.

Lemma nonempty_app word c :
  Py.nonempty (word ++ String c EmptyString) = true.
Proof. destruct word; reflexivity. Qed.

Lemma split_rstrip s : forall word,
  Py.split_from word (Py.rstrip s) = Py.split_from word s.
Proof.
  induction s as [|c r IH]; intros word; [reflexivity|].
  cbn [Py.rstrip]. destruct (Py.rstrip r) as [|a r'] eqn:E.
  - pose proof (rstrip_empty r E) as Hr.
    destruct (Py.isspace_char c) eqn:Hc; cbn [Py.split_from]; rewrite Hc.
    + rewrite (split_from_spaces r EmptyString Hr). reflexivity.
    + rewrite (split_from_spaces r _ Hr), nonempty_app. reflexivity.
  - cbn [Py.split_from]. rewrite <- !IH. reflexivity.
Qed.

(** Splitting a line and splitting the stripped line give the same fields. *)
Lemma split_strip s : Py.split (Py.strip s) = Py.split s.
Proof.
  unfold Py.split, Py.strip. rewrite split_rstrip. apply split_lstrip.
Qed.

Lemma parse_hit_strip line : parse_hit (Py.strip line) = parse_hit line.
Proof. unfold parse_hit. rewrite split_strip. reflexivity. Qed.

Lemma fields_not_blank line :
  (1 <= List.length (Py.split line))%nat -> is_blank line = false.
Proof.
  intros H. unfold is_blank. rewrite <- split_strip in H.
  destruct (Py.strip line); [cbn in H; lia | reflexivity].
Qed.

Lemma named_hit_of_parse_hit line attributes iv :
  parse_hit line = Ok (attributes, iv) ->
  exists name, named_hit (Py.strip line) = Ok (attributes, iv, name).
Proof.
  intros H. unfold named_hit. rewrite parse_hit_strip, H. cbn [bind fst].
  apply parse_hit_ok in H as [-> _].
  exists (nth 2 (Py.split line) EmptyString). reflexivity.
Qed.

Lemma hits_until_error_app_ok a l hs (h : hit_t) :
  hits_until_error a = (hs, None) -> named_hit l = Ok h ->
  hits_until_error (a ++ [l]) = ((hs ++ [h])%list, None).
Proof.
  revert hs. induction a as [|x a IH]; intros hs Ha Hl.
  - cbn [app hits_until_error] in *. rewrite Hl. injection Ha as <-. reflexivity.
  - cbn [app hits_until_error] in *.
    destruct (named_hit x) as [h0|]; [|discriminate].
    destruct (hits_until_error a) as [hs' e'].
    injection Ha as <- ->. rewrite (IH hs' eq_refl Hl). reflexivity.
Qed.

(** The last run of hits ends with the last hit. *)
Lemma runs_snoc hs h :
  exists rs run, runs (hs ++ [h]) = (rs ++ [(run ++ [h])%list])%list.
Proof.
  induction hs as [|x hs (rs & run & IH)].
  - exists [], []. reflexivity.
  - destruct (hs ++ [h])%list as [|y t] eqn:E; [destruct hs; discriminate|].
    change ((x :: hs) ++ [h])%list with (x :: (hs ++ [h]))%list. rewrite E.
    rewrite runs_cons_cons, IH.
    destruct rs as [|r0 rs]; cbn [app];
      destruct (String.eqb (hit_name x) (hit_name y)).
    + exists [], (x :: run). reflexivity.
    + exists [[x]], run. reflexivity.
    + exists ((x :: r0) :: rs), run. reflexivity.
    + exists ([x] :: r0 :: rs), run. reflexivity.
Qed.

(** A data line that gives a hit, after lines that parse: the hit is
    assigned into the last group that is yielded. *)
Lemma parse_records_last_hit before line (h : hit_t) :
  snd (_parse_records before) = None ->
  is_blank line = false -> is_comment (Py.strip line) = false ->
  named_hit (Py.strip line) = Ok h ->
  exists earlier g,
    _parse_records (before ++ [line]) = ((earlier ++ [g])%list, None)
    /\ dict_find Feature_eqb g (hit_key h) = Some [hit_interval_of h].
Proof.
  intros N B C H. rewrite parse_records_emitted in N. cbn [snd] in N.
  rewrite parse_records_emitted. unfold hits, failure in *.
  rewrite data_lines_app, (data_lines_kept _ B C).
  destruct (hits_until_error (data_lines before)) as [hs e0] eqn:E.
  cbn [snd] in N. subst e0.
  rewrite (hits_until_error_app_ok _ _ _ _ E H). cbn [fst snd]. unfold emitted.
  destruct (runs_snoc hs h) as (rs & run & R). rewrite R.
  exists (map group_of rs), (group_of (run ++ [h])). split.
  - destruct rs; cbn [app map]; rewrite ?map_app; reflexivity.
  - rewrite group_of_app. unfold add_hit, Feature. apply dict_find_set_same.
Qed.

(** A data line that raises, after lines that parse. *)
Lemma parse_records_failing_line before line e :
  snd (_parse_records before) = None ->
  is_blank line = false -> is_comment (Py.strip line) = false ->
  named_hit (Py.strip line) = Raise e ->
  _parse_records (before ++ [line])
  = (removelast (fst (_parse_records before)), Some e).
Proof.
  intros N B C R. rewrite parse_records_emitted in N. cbn [snd] in N.
  rewrite (parse_records_emitted before), N. cbn [fst].
  rewrite (parse_records_emitted (before ++ [line])).
  unfold hits, failure in *. rewrite data_lines_app, (data_lines_kept _ B C).
  destruct (hits_until_error (data_lines before)) as [hs e0] eqn:H.
  cbn [snd] in N. subst e0.
  rewrite (hits_until_error_app_raise _ _ [] _ _ H R). cbn [fst snd].
  unfold emitted. destruct (runs hs) as [|r rs]; [reflexivity|].
  rewrite map_removelast. reflexivity.
Qed.

(** C3: a data line of strand [-] whose start is not below its end, read
    after lines that parse, is emitted in the last group with the interval
    [(end, start)], the bounds swapped, so the stored interval is ascending,
    and the attribute [STRAND] of its key still holds [-]. *)
Theorem reverse_strand_interval_swapped (before : list string)
    (line a b : string) (s e : Z) :
  snd (_parse_records before) = None ->
  is_comment (Py.strip line) = false ->
  (18 <= List.length (Py.split line))%nat ->
  nth_error (Py.split line) 7 = Some a ->
  nth_error (Py.split line) 8 = Some b ->
  nth_error (Py.split line) 9 = Some "-" ->
  int a = Ok s -> int b = Ok e ->
  s >= e ->
  exists attributes earlier g,
    parse_hit line = Ok (attributes, (e, s))
    /\ _parse_records (before ++ [line]) = ((earlier ++ [g])%list, None)
    /\ dict_find Feature_eqb g (Feature attributes) = Some [(e, s)]
    /\ e <= s
    /\ dict_get String.eqb attributes "STRAND" = Ok "-".
Proof.
  intros N C Hlen H7 H8 H9 Ha Hb Hse.
  destruct (parse_hit_reverse line a b s e Hlen H7 H8 H9 Ha Hb Hse) as [P S].
  destruct (named_hit_of_parse_hit _ _ _ P) as (name & Hn).
  assert (is_blank line = false) as B by (apply fields_not_blank; lia).
  destruct (parse_records_last_hit before line _ N B C Hn) as (earlier & g & R & F).
  exists (cmscan_attributes (Py.split line)), earlier, g.
  repeat split; [exact P | exact R | exact F | lia | exact S].
Qed.

(** The scenario of C3: strand [-], start 500, end 300, after the header
    and a hit on another sequence. *)
Lemma reverse_strand_interval_swapped_witness :
  exists attributes earlier g,
    parse_hit (line_reverse ++ nl) = Ok (attributes, (300, 500))
    /\ _parse_records ([header ++ nl; line_23 ++ nl] ++ [line_reverse ++ nl])
       = ((earlier ++ [g])%list, None)
    /\ dict_find Feature_eqb g (Feature attributes) = Some [(300, 500)]
    /\ 300 <= 500
    /\ dict_get String.eqb attributes "STRAND" = Ok "-".
Proof.
  apply (reverse_strand_interval_swapped [header ++ nl; line_23 ++ nl]
           (line_reverse ++ nl) "500" "300" 500 300);
    try (vm_compute; reflexivity).
  lia.
Defined.

(** C4, amended: on a data line of at least 18 fields whose start and end
    are numbers and whose strand is [+], read after lines that parse, a
    format error ends the parser exactly when the start is above the end,
    and its message says that the hit may be on the reverse strand;
    otherwise the line is emitted in the last group with the interval
    [(start, end)], the bounds in their order. *)
Theorem forward_strand_interval (before : list string) (line a b : string)
    (s e : Z) :
  snd (_parse_records before) = None ->
  is_comment (Py.strip line) = false ->
  (18 <= List.length (Py.split line))%nat ->
  nth_error (Py.split line) 7 = Some a ->
  nth_error (Py.split line) 8 = Some b ->
  nth_error (Py.split line) 9 = Some "+" ->
  int a = Ok s -> int b = Ok e ->
  ((exists message,
      snd (_parse_records (before ++ [line])) = Some (CmscanFormatError message))
   <-> s > e)
  /\ (s > e ->
      parse_hit line = Raise (CmscanFormatError (forward_message s e))
      /\ _parse_records (before ++ [line])
         = (removelast (fst (_parse_records before)),
            Some (CmscanFormatError (forward_message s e)))
      /\ mentions (forward_message s e) "reverse strand")
  /\ (s <= e ->
      exists attributes earlier g,
        parse_hit line = Ok (attributes, (s, e))
        /\ _parse_records (before ++ [line]) = ((earlier ++ [g])%list, None)
        /\ dict_find Feature_eqb g (Feature attributes) = Some [(s, e)]).
Proof.
  intros N C Hlen H7 H8 H9 Ha Hb.
  pose proof (parse_hit_forward line a b s e Hlen H7 H8 H9 Ha Hb) as P.
  assert (is_blank line = false) as B by (apply fields_not_blank; lia).
  pose proof (Zgt_cases s e) as G. destruct (s >? e).
  - assert (_parse_records (before ++ [line])
            = (removelast (fst (_parse_records before)),
               Some (CmscanFormatError (forward_message s e)))) as R.
    { apply parse_records_failing_line; try assumption.
      unfold named_hit. rewrite parse_hit_strip, P. reflexivity. }
    split; [|split].
    + split; [intros _; exact G | intros _; rewrite R; eexists; reflexivity].
    + intros _. split; [exact P|]. split; [exact R|].
      apply forward_message_mentions.
    + intros L. lia.
  - destruct (named_hit_of_parse_hit _ _ _ P) as (name & Hn).
    destruct (parse_records_last_hit before line _ N B C Hn)
      as (earlier & g & R & F).
    split; [|split].
    + split; [intros (m & Hm); rewrite R in Hm; discriminate | lia].
    + intros L. lia.
    + intros _. exists (cmscan_attributes (Py.split line)), earlier, g.
      repeat split; [exact P | exact R | exact F].
Qed.

(** Line 23 after the header, and a line of strand [+] from 500 to 300. *)
Lemma forward_strand_interval_witness :
  (exists attributes earlier g,
     parse_hit (line_23 ++ nl) = Ok (attributes, (4977823, 4980727))
     /\ _parse_records ([header ++ nl] ++ [line_23 ++ nl])
        = ((earlier ++ [g])%list, None)
     /\ dict_find Feature_eqb g (Feature attributes)
        = Some [(4977823, 4980727)])
  /\ (parse_hit (line_forward_descending ++ nl)
      = Raise (CmscanFormatError (forward_message 500 300))
      /\ _parse_records ([header ++ nl; line_23 ++ nl]
                         ++ [line_forward_descending ++ nl])
         = (removelast (fst (_parse_records [header ++ nl; line_23 ++ nl])),
            Some (CmscanFormatError (forward_message 500 300)))
      /\ mentions (forward_message 500 300) "reverse strand").
Proof.
  split.
  - apply (forward_strand_interval [header ++ nl] (line_23 ++ nl)
             "4977823" "4980727" 4977823 4980727);
      try (vm_compute; reflexivity).
    all: lia.
  - apply (forward_strand_interval [header ++ nl; line_23 ++ nl]
             (line_forward_descending ++ nl) "500" "300" 500 300);
      try (vm_compute; reflexivity).
    all: lia.
Defined.

(** C4 as stated fails: a data line of 12 fields with strand [+] and start
    300 below end 500 raises [IndexError]; no format error is raised and no
    interval is emitted. *)
Lemma forward_short_line_emits_nothing :
  is_comment (Py.strip (line_forward_short ++ nl)) = false
  /\ nth_error (Py.split (line_forward_short ++ nl)) 7 = Some "300"
  /\ nth_error (Py.split (line_forward_short ++ nl)) 8 = Some "500"
  /\ nth_error (Py.split (line_forward_short ++ nl)) 9 = Some "+"
  /\ int "300" = Ok 300 /\ int "500" = Ok 500 /\ 300 <= 500
  /\ parse_hit (line_forward_short ++ nl) = Raise IndexError
  /\ _parse_records [line_forward_short ++ nl] = ([], Some IndexError).
Proof.
  repeat split; try (vm_compute; reflexivity). lia.
Qed.
